(** * na_gribtools.icon.db: the ICON forecast database front end

    A shallow embedding of [ICONDatabase] (src/na_gribtools/icon/db.py):
    the resource locator ([__getDatasetFilename], [__getURL]), the time
    resolver ([__getDownloadTimeInfo], the horizon computation of
    [downloadForecastFromNow]), the archive index ([listDatabase]) and the
    retention janitor ([cleanUp]).

    Conventions of the embedding
    - Python [int] is [Z]; [str] is [string] (the names handled here are
      ASCII: variable names, run identifiers, file names).
    - A Python exception is a value of [exn]; a call that may raise has
      type [result A].
    - A [dict] is a [gmap]; a directory is the list of its entries.
    - [datetime.datetime] is a record of its fields, with the proleptic
      Gregorian ordinal arithmetic of CPython's [datetime] module. *)

From stdpp Require Import gmap strings list fin_maps.
From Stdlib Require Import ZArith Ascii String Lia Bool.

Open Scope string_scope.
Open Scope Z_scope.

(** ** Exceptions and results *)

Inductive exn : Type :=
  | AssertionError
  | KeyError
  | AttributeError
  | ValueError
  | OverflowError
  | Exception (msg : string).

Inductive result (A : Type) : Type :=
  | Ok (a : A)
  | Raise (e : exn).

Arguments Ok {A} a.
Arguments Raise {A} e.

#[global] Instance result_ret : MRet result := fun A a => Ok a.

#[global] Instance result_bind : MBind result := fun A B k r =>
  match r with
  | Ok a => k a
  | Raise e => Raise e
  end.

Definition succeeds {A : Type} (r : result A) : Prop :=
  exists a, r = Ok a.

Definition fails {A : Type} (r : result A) : Prop :=
  exists e, r = Raise e.

(** ** Python string operations *)

Module PyStr.

Definition is_lower (c : ascii) : bool :=
  (97 <=? nat_of_ascii c)%nat && (nat_of_ascii c <=? 122)%nat.

Definition is_upper (c : ascii) : bool :=
  (65 <=? nat_of_ascii c)%nat && (nat_of_ascii c <=? 90)%nat.

Definition is_digit (c : ascii) : bool :=
  (48 <=? nat_of_ascii c)%nat && (nat_of_ascii c <=? 57)%nat.

Definition upper_char (c : ascii) : ascii :=
  if is_lower c then ascii_of_nat (nat_of_ascii c - 32) else c.

Definition lower_char (c : ascii) : ascii :=
  if is_upper c then ascii_of_nat (nat_of_ascii c + 32) else c.

(** [s.upper()] and [s.lower()] *)
Fixpoint upper (s : string) : string :=
  match s with
  | EmptyString => EmptyString
  | String c s' => String (upper_char c) (upper s')
  end.

Fixpoint lower (s : string) : string :=
  match s with
  | EmptyString => EmptyString
  | String c s' => String (lower_char c) (lower s')
  end.

Fixpoint drop (n : nat) (s : string) : string :=
  match n, s with
  | O, _ => s
  | S _, EmptyString => EmptyString
  | S n', String _ s' => drop n' s'
  end.

(** [s[-n:]] for [n > 0]: the last [n] characters, the whole string when
    it is shorter. *)
Definition last_chars (n : nat) (s : string) : string :=
  drop (String.length s - n) s.

(** [s.startswith(p)] *)
Fixpoint startswith (p s : string) : bool :=
  match p, s with
  | EmptyString, _ => true
  | String _ _, EmptyString => false
  | String a p', String b s' => Ascii.eqb a b && startswith p' s'
  end.

(** [s.endswith(p)] *)
Definition endswith (s p : string) : bool :=
  (String.length p <=? String.length s)%nat
  && String.eqb (last_chars (String.length p) s) p.

Fixpoint repeat (c : ascii) (n : nat) : string :=
  match n with
  | O => EmptyString
  | S n' => String c (repeat c n')
  end.

Definition digit_char (d : Z) : ascii := ascii_of_nat (48 + Z.to_nat d).

Fixpoint dec_digits (fuel : nat) (n : Z) (acc : string) : string :=
  match fuel with
  | O => acc
  | S fuel' =>
      let acc' := String (digit_char (n mod 10)) acc in
      if n <? 10 then acc' else dec_digits fuel' (n / 10) acc'
  end.

(** [str(n)] for [n >= 0]; a number below [2^k] has at most [k] decimal
    digits, so the fuel never runs out. *)
Definition str_of_nonneg (n : Z) : string :=
  dec_digits (S (Z.to_nat (Z.log2 n))) n EmptyString.

(** ["%0<w>d" % z] when [zero], ["%<w>d" % z] otherwise: the sign, then
    the decimal digits, padded on the left up to [width] characters, with
    zeros between sign and digits or with spaces before the sign. *)
Definition fmt_d (zero : bool) (width : nat) (z : Z) : string :=
  let sign := if z <? 0 then "-" else "" in
  let body := str_of_nonneg (Z.abs z) in
  let pad := (width - (String.length sign + String.length body))%nat in
  if zero then sign ++ repeat "0" pad ++ body
  else repeat " " pad ++ sign ++ body.

#[global] Arguments fmt_d : simpl never.

Definition value_of_digit (c : ascii) : Z := Z.of_nat (nat_of_ascii c) - 48.

(** [int(s)] for a string of ASCII digits, most significant first. *)
Fixpoint int_of_digits (acc : Z) (s : string) : Z :=
  match s with
  | EmptyString => acc
  | String c s' => int_of_digits (10 * acc + value_of_digit c) s'
  end.

Fixpoint all_digits (s : string) : bool :=
  match s with
  | EmptyString => true
  | String c s' => is_digit c && all_digits s'
  end.

Definition take (n : nat) (s : string) : string := String.substring 0 n s.

End PyStr.

(** ** The variable catalog and the resource locator *)

Section Locator.

(** [ICON_VARIABLES] of [variables.py]: variable identifier to
    (name, vertical level, band).  The table is not part of the sources
    at hand, so everything below is stated for an arbitrary catalog. *)
Variable ICON_VARIABLES : gmap string (string * string * Z).

Definition invalid_forecast_hour : exn := Exception "Invalid forecast hour.".

Definition __getDatasetFilename
    (variableID timeIdentifier : string) (hours : Z) (ending : string)
    : result string :=
  match ICON_VARIABLES !! variableID with
  | None => Raise KeyError
  | Some (vName, vLevel, vBand) =>
      Ok ("ICON_iko_" ++ vLevel ++ "_elements_world_" ++ PyStr.upper vName
          ++ "_" ++ timeIdentifier ++ "_" ++ PyStr.fmt_d true 3 hours
          ++ ending)
  end.

(** The two assertions on [hours]; [hours] is a [Z], so [type(hours) ==
    int] holds by typing. *)
Definition valid_hours (hours : Z) : bool :=
  (0 <=? hours) && (hours <=? 180)
  && (if 78 <? hours then hours mod 3 =? 0 else true).

Definition __getURL (variableID timeIdentifier : string) (hours : Z)
    : result string :=
  match ICON_VARIABLES !! variableID with
  | None => Raise AssertionError
  | Some (vName, vLevel, vBand) =>
      if valid_hours hours then
        let URL := "https://opendata.dwd.de/weather/icon/global/grib/" in
        let URL := URL ++ PyStr.last_chars 2 timeIdentifier ++ "/"
                       ++ PyStr.lower vName ++ "/" in
        fname ← __getDatasetFilename variableID timeIdentifier hours
                   ".grib2.bz2";
        Ok (URL ++ fname)
      else Raise invalid_forecast_hour
  end.

End Locator.

(** ** Python's [datetime] module

    The part of CPython's [Lib/_pydatetime.py] that [db.py] uses: naive
    datetimes, their construction with range checks, the proleptic
    Gregorian ordinal, addition and subtraction of a [timedelta], and the
    difference of two datetimes.  A [timedelta] is its exact length in
    microseconds (CPython normalises it to days, seconds and microseconds,
    which denotes the same integer). *)

Module datetime.

Definition MINYEAR : Z := 1.
Definition MAXYEAR : Z := 9999.
Definition MAXORDINAL : Z := 3652059.

Definition DAYS_IN_MONTH (month : Z) : Z :=
  match month with
  | 1 => 31 | 2 => 28 | 3 => 31 | 4 => 30 | 5 => 31 | 6 => 30
  | 7 => 31 | 8 => 31 | 9 => 30 | 10 => 31 | 11 => 30 | 12 => 31
  | _ => -1
  end.

Definition DAYS_BEFORE_MONTH (month : Z) : Z :=
  match month with
  | 1 => 0 | 2 => 31 | 3 => 59 | 4 => 90 | 5 => 120 | 6 => 151
  | 7 => 181 | 8 => 212 | 9 => 243 | 10 => 273 | 11 => 304 | 12 => 334
  | _ => -1
  end.

Definition is_leap (year : Z) : bool :=
  (year mod 4 =? 0) && (negb (year mod 100 =? 0) || (year mod 400 =? 0)).

Definition days_before_year (year : Z) : Z :=
  let y := year - 1 in
  y * 365 + y / 4 - y / 100 + y / 400.

Definition days_in_month (year month : Z) : Z :=
  if (month =? 2) && is_leap year then 29 else DAYS_IN_MONTH month.

Definition days_before_month (year month : Z) : Z :=
  DAYS_BEFORE_MONTH month + (if (2 <? month) && is_leap year then 1 else 0).

Definition ymd2ord (year month day : Z) : Z :=
  days_before_year year + days_before_month year month + day.

Definition DI400Y : Z := 146097.
Definition DI100Y : Z := 36524.
Definition DI4Y : Z := 1461.

Definition ord2ymd (n : Z) : Z * Z * Z :=
  let n := n - 1 in
  let n400 := n / DI400Y in
  let n := n mod DI400Y in
  let year := n400 * 400 + 1 in
  let n100 := n / DI100Y in
  let n := n mod DI100Y in
  let n4 := n / DI4Y in
  let n := n mod DI4Y in
  let n1 := n / 365 in
  let n := n mod 365 in
  let year := year + n100 * 100 + n4 * 4 + n1 in
  if (n1 =? 4) || (n100 =? 4) then (year - 1, 12, 31)
  else
    let leapyear := (n1 =? 3) && (negb (n4 =? 24) || (n100 =? 3)) in
    let month := Z.shiftr (n + 50) 5 in
    let preceding :=
      DAYS_BEFORE_MONTH month + (if (2 <? month) && leapyear then 1 else 0) in
    let '(month, preceding) :=
      if n <? preceding then
        (month - 1,
         preceding - (DAYS_IN_MONTH (month - 1)
                      + (if (month - 1 =? 2) && leapyear then 1 else 0)))
      else (month, preceding) in
    (year, month, n - preceding + 1).

(** The month and the day of the month of day [n] of a year, counted
    from 0: the tail of [_ord2ymd]. *)
Definition month_day (leapyear : bool) (n : Z) : Z * Z :=
  let month := Z.shiftr (n + 50) 5 in
  let preceding :=
    DAYS_BEFORE_MONTH month + (if (2 <? month) && leapyear then 1 else 0) in
  let '(month, preceding) :=
    if n <? preceding then
      (month - 1,
       preceding - (DAYS_IN_MONTH (month - 1)
                    + (if (month - 1 =? 2) && leapyear then 1 else 0)))
    else (month, preceding) in
  (month, n - preceding + 1).

Definition in_range (us : Z) : Prop :=
  1 * (86400 * 1000000) <= us < (MAXORDINAL + 1) * (86400 * 1000000).

Record datetime : Type := mk_datetime {
  year : Z; month : Z; day : Z;
  hour : Z; minute : Z; second : Z; microsecond : Z
}.

(** The checks of [_check_date_fields] and [_check_time_fields]. *)
Definition check_fields (y m d hh mm ss us : Z) : bool :=
  (MINYEAR <=? y) && (y <=? MAXYEAR)
  && (1 <=? m) && (m <=? 12)
  && (1 <=? d) && (d <=? days_in_month y m)
  && (0 <=? hh) && (hh <=? 23)
  && (0 <=? mm) && (mm <=? 59)
  && (0 <=? ss) && (ss <=? 59)
  && (0 <=? us) && (us <=? 999999).

Definition valid (t : datetime) : Prop :=
  check_fields (year t) (month t) (day t)
               (hour t) (minute t) (second t) (microsecond t) = true.

(** [datetime.datetime(y, m, d, hh)]; [ValueError] on a field out of
    range. *)
Definition new (y m d hh : Z) : result datetime :=
  if check_fields y m d hh 0 0 0 then Ok (mk_datetime y m d hh 0 0 0)
  else Raise ValueError.

Definition toordinal (t : datetime) : Z :=
  ymd2ord (year t) (month t) (day t).

Definition timedelta : Type := Z.

Definition US_PER_SECOND : Z := 1000000.
Definition US_PER_HOUR : Z := 3600 * US_PER_SECOND.
Definition US_PER_DAY : Z := 86400 * US_PER_SECOND.

(** [datetime.timedelta(hours=h)] *)
Definition hours (h : Z) : timedelta := h * US_PER_HOUR.

(** The instant of [t] on the microsecond axis: what CPython builds as
    [timedelta(t.toordinal(), hours=.., minutes=.., seconds=..,
    microseconds=..)] in [__add__] and [__sub__]. *)
Definition to_us (t : datetime) : Z :=
  toordinal t * US_PER_DAY + hour t * US_PER_HOUR
  + minute t * (60 * US_PER_SECOND) + second t * US_PER_SECOND
  + microsecond t.

(** [t + delta]; [OverflowError] outside [0001-01-01 .. 9999-12-31]. *)
Definition add (t : datetime) (delta : timedelta) : result datetime :=
  let total := to_us t + delta in
  let days := total / US_PER_DAY in
  let rest := total mod US_PER_DAY in
  let secs := rest / US_PER_SECOND in
  let us := rest mod US_PER_SECOND in
  let hh := secs / 3600 in
  let rem := secs mod 3600 in
  let mm := rem / 60 in
  let ss := rem mod 60 in
  if (0 <? days) && (days <=? MAXORDINAL) then
    let '(y, m, d) := ord2ymd days in
    Ok (mk_datetime y m d hh mm ss us)
  else Raise OverflowError.

(** [t - delta] *)
Definition sub (t : datetime) (delta : timedelta) : result datetime :=
  add t (- delta).

(** [a - b] for two datetimes *)
Definition diff (a b : datetime) : timedelta := to_us a - to_us b.

(** [int(delta.total_seconds() / 3600.0)].  [total_seconds] and the
    division are floating point; on the differences of whole-hour
    datetimes taken in [db.py] both are exact (an integer number of
    seconds below [2^53], divided by 3600 without remainder), and [int]
    truncates towards zero. *)
Definition whole_hours (delta : timedelta) : Z :=
  Z.quot delta US_PER_HOUR.

(** [delta.total_seconds() > 0] *)
Definition positive (delta : timedelta) : bool := 0 <? delta.

End datetime.

(** ** The time resolver and the fetch orchestrator *)

Definition DATASET_DELAY : datetime.timedelta := datetime.hours 3.

(** [__getDownloadTimeInfo]; [utcnow] is the reading of the clock that the
    call takes.  [math.floor(lastTime.hour / 6.0)] is the floor division of
    an hour in [0..23] by 6. *)
Definition __getDownloadTimeInfo (utcnow : datetime.datetime)
    : result (string * datetime.datetime) :=
  lastTime ← datetime.sub utcnow DATASET_DELAY;
  let downloadHour := (datetime.hour lastTime / 6) * 6 in
  downloadTime ← datetime.new (datetime.year lastTime)
                   (datetime.month lastTime) (datetime.day lastTime)
                   downloadHour;
  Ok (PyStr.fmt_d false 4 (datetime.year downloadTime)
      ++ PyStr.fmt_d true 2 (datetime.month downloadTime)
      ++ PyStr.fmt_d true 2 (datetime.day downloadTime)
      ++ PyStr.fmt_d true 2 downloadHour,
      downloadTime).

(** Lines 124-127 of [downloadForecastFromNow]: above 78 hours the
    difference is brought down to a multiple of 3, above 180 it becomes
    180.  [int(math.floor(d / 3.0) * 3.0)] is [(d // 3) * 3] on the
    integers concerned. *)
Definition quantize_horizon (forecastDiff : Z) : Z :=
  let forecastDiff :=
    if 78 <? forecastDiff then (forecastDiff / 3) * 3 else forecastDiff in
  let forecastDiff :=
    if 180 <? forecastDiff then 180 else forecastDiff in
  forecastDiff.

(** Lines 115-123 of [downloadForecastFromNow]: the governing run and the
    difference in whole hours between it and the forecast time.  The
    function reads the clock twice, in [__getDownloadTimeInfo] ([utcnow1])
    and for [nowTime] ([utcnow2]). *)
Definition forecast_diff (utcnow1 utcnow2 : datetime.datetime)
    (forecastHoursFromNow : Z) : result (string * Z) :=
  '(timeIdentifier, downloadTime) ← __getDownloadTimeInfo utcnow1;
  let nowTime := utcnow2 in
  roundedNowTime ← datetime.new (datetime.year nowTime)
                     (datetime.month nowTime) (datetime.day nowTime)
                     (datetime.hour nowTime);
  forecastTime ← datetime.add roundedNowTime
                   (datetime.hours forecastHoursFromNow);
  Ok (timeIdentifier,
      datetime.whole_hours (datetime.diff forecastTime downloadTime)).

(** The run identifier and the horizon that [downloadForecastFromNow]
    hands to [__downloadAndCompile]. *)
Definition resolve_from_now (utcnow1 utcnow2 : datetime.datetime)
    (forecastHoursFromNow : Z) : result (string * Z) :=
  '(timeIdentifier, forecastDiff) ←
     forecast_diff utcnow1 utcnow2 forecastHoursFromNow;
  Ok (timeIdentifier, quantize_horizon forecastDiff).

Section Orchestrator.

Variable ICON_VARIABLES : gmap string (string * string * Z).

(** [downloadAndCompile] of [dbcache.py], the external collaborator that
    fetches the URLs and builds the archive; the directories and the
    checksum key of the configuration are part of it. *)
Variable Archive : Type.
Variable downloadAndCompile :
  string -> Z -> gmap string string -> result Archive.

(** The loop of [__downloadAndCompile] over the catalog. *)
Fixpoint build_urls (ids : list string) (timeIdentifier : string)
    (hours : Z) (downloadURLs : gmap string string)
    : result (gmap string string) :=
  match ids with
  | [] => Ok downloadURLs
  | variableID :: ids' =>
      url ← __getURL ICON_VARIABLES variableID timeIdentifier hours;
      build_urls ids' timeIdentifier hours (<[variableID := url]> downloadURLs)
  end.

Definition __downloadAndCompile (timeIdentifier : string) (hours : Z)
    : result Archive :=
  downloadURLs ← build_urls (map_to_list ICON_VARIABLES).*1
                   timeIdentifier hours ∅;
  downloadAndCompile timeIdentifier hours downloadURLs.

Definition downloadForecastFromRuntime (utcnow : datetime.datetime)
    (forecastHoursFromRuntime : Z) : result Archive :=
  '(timeIdentifier, downloadTime) ← __getDownloadTimeInfo utcnow;
  if (1 <=? forecastHoursFromRuntime) && (forecastHoursFromRuntime <? 181)
     && (if 78 <? forecastHoursFromRuntime
         then forecastHoursFromRuntime mod 3 =? 0 else true)
  then __downloadAndCompile timeIdentifier forecastHoursFromRuntime
  else Raise (Exception "Requested forecast hour invalid.").

Definition downloadForecastFromNow (utcnow1 utcnow2 : datetime.datetime)
    (forecastHoursFromNow : Z) : result Archive :=
  '(timeIdentifier, forecastDiff) ←
     resolve_from_now utcnow1 utcnow2 forecastHoursFromNow;
  __downloadAndCompile timeIdentifier forecastDiff.

End Orchestrator.

(** ** File names, the archive index and the retention janitor *)

Module Re.

(** [[0-9]{k}] at the head of [s]: the digits matched and the rest. *)
Fixpoint digits (k : nat) (s : string) : option (string * string) :=
  match k with
  | O => Some (EmptyString, s)
  | S k' =>
      match s with
      | EmptyString => None
      | String c s' =>
          if PyStr.is_digit c then
            '(ds, rest) ← digits k' s'; Some (String c ds, rest)
          else None
      end
  end.

(** A literal at the head of [s]: the rest. *)
Definition lit (p s : string) : option string :=
  if PyStr.startswith p s then Some (PyStr.drop (String.length p) s)
  else None.

(** [forecast-([0-9]{10})] at the head of [s]: group 1. *)
Definition forecast_at (s : string) : option string :=
  rest ← lit "forecast-" s; '(g, _) ← digits 10 rest; Some g.

(** [([0-9]{10})_[0-9]{3}] at the head of [s]: group 1. *)
Definition run_horizon_at (s : string) : option string :=
  '(g, rest) ← digits 10 s; rest ← lit "_" rest;
  '(_, _) ← digits 3 rest; Some g.

(** [re.search]: the leftmost position where the pattern matches. *)
Fixpoint search (at_head : string -> option string) (s : string)
    : option string :=
  match at_head s with
  | Some g => Some g
  | None =>
      match s with
      | EmptyString => None
      | String _ s' => search at_head s'
      end
  end.

End Re.

Module os.

Fixpoint has_sep (s : string) : bool :=
  match s with
  | EmptyString => false
  | String c s' => Ascii.eqb c "/" || has_sep s'
  end.

(** [os.path.join(a, b)] of [posixpath] *)
Definition join (a b : string) : string :=
  if PyStr.startswith "/" b then b
  else if String.eqb a "" || PyStr.endswith a "/" then a ++ b
  else a ++ "/" ++ b.

(** [os.path.split(p)[-1]]: what follows the last ["/"]. *)
Fixpoint basename (p : string) : string :=
  match p with
  | EmptyString => EmptyString
  | String c p' =>
      if has_sep p' then basename p'
      else if Ascii.eqb c "/" then p' else p
  end.

(** An entry of a directory: its name, as [os.listdir] gives it, and
    whether [os.path.isfile] holds of it. *)
Record dirent : Type := mk_dirent { d_name : string; d_isfile : bool }.

End os.

(** Modelled from the spec: [timeIdentifierToDatetime] is imported from a
    module that is not among the sources.  The spec's RunIdentifier is "a
    10-digit string YYYYMMDDHH", "always parseable back to a valid UTC
    datetime truncated to the hour"; an identifier that does not denote a
    valid datetime does not parse. *)
Definition timeIdentifierToDatetime (timeIdentifier : string)
    : result datetime.datetime :=
  if (String.length timeIdentifier =? 10)%nat
     && PyStr.all_digits timeIdentifier then
    datetime.new
      (PyStr.int_of_digits 0 (String.substring 0 4 timeIdentifier))
      (PyStr.int_of_digits 0 (String.substring 4 2 timeIdentifier))
      (PyStr.int_of_digits 0 (String.substring 6 2 timeIdentifier))
      (PyStr.int_of_digits 0 (String.substring 8 2 timeIdentifier))
  else Raise ValueError.

(** Modelled from the spec: [filterDirWithSuffix] is imported from
    [filesystem.py], which is not among the sources.  The janitor "scans
    directory twice, once per artifact class", by file name, and the
    "extension [is] one of the raw/compressed set": the paths of the files
    of the directory whose name ends with one of the suffixes. *)
Definition filterDirWithSuffix (tempDir : string) (listing : list os.dirent)
    (suffixes : list string) : list string :=
  map (fun e => os.join tempDir (os.d_name e))
      (List.filter
         (fun e => os.d_isfile e
                   && existsb (PyStr.endswith (os.d_name e)) suffixes)
         listing).

Record archive_info : Type := mk_archive_info {
  path : string;
  forecasttime : datetime.datetime
}.

(** One round of the loop of [listDatabase]. *)
Definition listDatabase_step (tempDir : string)
    (ret : gmap string archive_info) (e : os.dirent)
    : gmap string archive_info :=
  let name := os.d_name e in
  let fullpath := os.join tempDir name in
  if negb (PyStr.endswith fullpath ".icondb") then ret
  else if negb (os.d_isfile e) then ret
  else
    match Re.search Re.forecast_at name with
    | None => ret
    | Some timeIdentifier =>
        match timeIdentifierToDatetime timeIdentifier with
        | Raise _ => ret
        | Ok forecastTime =>
            <[timeIdentifier := mk_archive_info fullpath forecastTime]> ret
        end
    end.

Definition listDatabase (tempDir : string) (listing : list os.dirent)
    : gmap string archive_info :=
  foldl (listDatabase_step tempDir) ∅ listing.

(** [isOlderThan]: [a] is older than [b]. *)
Definition isOlderThan (a b : datetime.datetime) : bool :=
  datetime.positive (datetime.diff b a).

(** The body of the two loops of [cleanUp]: whether [path] goes on
    [delList].  [match.group(1)] on a failed match raises
    [AttributeError], which the [except] clause turns into a deletion, as
    it does for an identifier that does not parse. *)
Definition stale (pattern : string -> option string)
    (before : datetime.datetime) (path : string) : bool :=
  let filename := os.basename path in
  match Re.search pattern filename with
  | None => true
  | Some g =>
      match timeIdentifierToDatetime g with
      | Raise _ => true
      | Ok runTime => isOlderThan runTime before
      end
  end.

Definition unlink (tempDir path : string) (listing : list os.dirent)
    : list os.dirent :=
  List.filter
    (fun e => negb (String.eqb (os.join tempDir (os.d_name e)) path)) listing.

(** [cleanUp]: the paths deleted, in the order of [delList], and the
    directory afterwards.  [utcnow] is the reading of the clock,
    [archiveLife] the configured retention in hours. *)
Definition cleanUp (utcnow : datetime.datetime) (archiveLife : Z)
    (tempDir : string) (listing : list os.dirent)
    : result (list string * list os.dirent) :=
  let now := utcnow in
  let archiveLifeDelta := datetime.hours archiveLife in
  let oneHourDelta := datetime.hours 1 in
  deleteArchiveWithRunTimeBefore ← datetime.sub now archiveLifeDelta;
  deleteICONDBWithForecastTimeBefore ← datetime.sub now oneHourDelta;
  let gribArchives :=
    filterDirWithSuffix tempDir listing [".grb2"; ".grib2"; ".grib2.bz2"] in
  let delList :=
    List.filter (stale Re.run_horizon_at deleteArchiveWithRunTimeBefore)
                gribArchives in
  let icondbFiles :=
    filterDirWithSuffix tempDir listing
      [".icondb"; ".icondb.temp"; ".icondb.checksum"] in
  let delList :=
    (delList ++ List.filter
                  (stale Re.forecast_at deleteICONDBWithForecastTimeBefore)
                  icondbFiles)%list in
  Ok (delList, foldl (fun l each => unlink tempDir each l) listing delList).


(** The hour components of the run identifiers of the six-hour cycle. *)
Definition run_hours : list string := ["00"; "06"; "12"; "18"].

(** Horizon written with three decimal digits, as the spec words it *)
Definition zero_padded3 (h : Z) : string :=
  String (PyStr.digit_char (h / 100))
    (String (PyStr.digit_char (h / 10 mod 10))
       (String (PyStr.digit_char (h mod 10)) EmptyString)).

(** The two classes of file names of the janitor. *)
Definition grib_suffixes : list string := [".grb2"; ".grib2"; ".grib2.bz2"].
Definition icondb_suffixes : list string :=
  [".icondb"; ".icondb.temp"; ".icondb.checksum"].

(** What [os.listdir] gives: every name once, and no separator in a
    name. *)
Definition listdir_ok (listing : list os.dirent) : Prop :=
  NoDup (map os.d_name listing)
  /\ Forall (fun e => os.has_sep (os.d_name e) = false) listing.

(** [[0-9]{10}] at the head of [s]: the digits. *)
Definition ten_digits_at (s : string) : option string :=
  fst <$> Re.digits 10 s.

(** ** Sample data *)

Definition t2m_catalog : gmap string (string * string * Z) :=
  {[ "t_2m" := ("t_2m", "single-level", 1) ]}.

Definition clock_2024_01_02 : datetime.datetime :=
  datetime.mk_datetime 2024 1 2 0 0 0 0.

Definition clock_2024_01_02_0711 : datetime.datetime :=
  datetime.mk_datetime 2024 1 2 7 11 30 250000.

Definition sample_listing : list os.dirent :=
  [os.mk_dirent "2023123100_006.grib2" true;
   os.mk_dirent "forecast-2024010123.icondb" true;
   os.mk_dirent "forecast-2024010122.icondb" true;
   os.mk_dirent "forecast-abcdefghij.icondb" true;
   os.mk_dirent "forecast-2024010100.icondb.temp" true;
   os.mk_dirent "forecast-2024019900.icondb.checksum" true;
   os.mk_dirent "notes.txt" true].

(** * Properties *)

Lemma bind_Ok {A B : Type} (a : A) (k : A -> result B) : (Ok a ≫= k) = k a.
Proof. reflexivity. Qed.

Lemma bind_Raise {A B : Type} (e : exn) (k : A -> result B) :
  (Raise e ≫= k) = Raise e.
Proof. reflexivity. Qed.

(** ** Strings *)

Module PyStrFacts.

Lemma append_cons c (s t : string) : String c s ++ t = String c (s ++ t).
Proof. reflexivity. Qed.

Lemma append_nil (t : string) : "" ++ t = t.
Proof. reflexivity. Qed.

Lemma length_append (s t : string) :
  String.length (s ++ t) = (String.length s + String.length t)%nat.
Proof.
  induction s as [|c s IH]; [done|].
  rewrite append_cons. simpl. by rewrite IH.
Qed.

Lemma append_assoc (s t u : string) : (s ++ t) ++ u = s ++ (t ++ u).
Proof.
  induction s as [|c s IH]; [done|].
  by rewrite !append_cons, IH.
Qed.

Lemma drop_length_app (s t : string) : PyStr.drop (String.length s) (s ++ t) = t.
Proof.
  induction s as [|c s IH]; [by destruct t|].
  rewrite append_cons. simpl. exact IH.
Qed.

Lemma last_chars_app (s t : string) :
  PyStr.last_chars (String.length t) (s ++ t) = t.
Proof.
  unfold PyStr.last_chars. rewrite length_append.
  replace (String.length s + String.length t - String.length t)%nat
    with (String.length s) by lia.
  apply drop_length_app.
Qed.

End PyStrFacts.

(** ** The calendar *)

Module DatetimeFacts.
Import datetime.

Lemma days_before_year_decomp a b c d :
  0 <= b <= 3 -> 0 <= c <= 24 -> 0 <= d <= 3 ->
  days_before_year (400 * a + 100 * b + 4 * c + d + 1)
  = 146097 * a + 36524 * b + 1461 * c + 365 * d.
Proof. intros. unfold days_before_year. Z.div_mod_to_equations. lia. Qed.

Lemma is_leap_decomp a b c d :
  0 <= b <= 3 -> 0 <= c <= 24 -> 0 <= d <= 3 ->
  is_leap (400 * a + 100 * b + 4 * c + d + 1)
  = (d =? 3) && (negb (c =? 24) || (b =? 3)).
Proof.
  intros. unfold is_leap.
  repeat match goal with
         | |- context [?x =? ?y] => destruct (Z.eqb_spec x y)
         end; simpl; try reflexivity; exfalso; Z.div_mod_to_equations; lia.
Qed.

Lemma month_day_spec (leap : bool) (n : Z) :
  0 <= n < 365 + (if leap then 1 else 0) ->
  let '(m, d) := month_day leap n in
  1 <= m <= 12
  /\ 1 <= d <= DAYS_IN_MONTH m + (if (m =? 2) && leap then 1 else 0)
  /\ DAYS_BEFORE_MONTH m + (if (2 <? m) && leap then 1 else 0) + d = n + 1.
Proof.
  intros Hn. unfold month_day.
  rewrite Z.shiftr_div_pow2 by lia. change (2 ^ 5) with 32.
  assert (Hm : 1 <= (n + 50) / 32 <= 12)
    by (destruct leap; Z.div_mod_to_equations; lia).
  assert (Hq : 32 * ((n + 50) / 32) <= n + 50 < 32 * ((n + 50) / 32) + 32)
    by (Z.div_mod_to_equations; lia).
  set (m0 := (n + 50) / 32) in *.
  assert (Hcases : m0 = 1 \/ m0 = 2 \/ m0 = 3 \/ m0 = 4 \/ m0 = 5 \/ m0 = 6
                   \/ m0 = 7 \/ m0 = 8 \/ m0 = 9 \/ m0 = 10 \/ m0 = 11
                   \/ m0 = 12) by lia.
  clearbody m0.
  destruct leap;
    repeat (destruct Hcases as [-> | Hcases]); try subst m0; cbn;
    match goal with
    | |- context [n <? ?p] => destruct (Z.ltb_spec n p)
    end; simpl; lia.
Qed.

Lemma ord2ymd_unfold n :
  ord2ymd n =
  let n0 := n - 1 in
  let n400 := n0 / 146097 in
  let r1 := n0 mod 146097 in
  let n100 := r1 / 36524 in
  let r2 := r1 mod 36524 in
  let n4 := r2 / 1461 in
  let r3 := r2 mod 1461 in
  let n1 := r3 / 365 in
  let r4 := r3 mod 365 in
  let year := n400 * 400 + 1 + n100 * 100 + n4 * 4 + n1 in
  if (n1 =? 4) || (n100 =? 4) then (year - 1, 12, 31)
  else
    let '(m, d) :=
      month_day ((n1 =? 3) && (negb (n4 =? 24) || (n100 =? 3))) r4 in
    (year, m, d).
Proof.
  unfold ord2ymd, month_day, DI400Y, DI100Y, DI4Y. cbv zeta.
  destruct ((_ =? 4) || (_ =? 4)); [reflexivity|].
  destruct (_ <? _); reflexivity.
Qed.

Lemma ord2ymd_spec n :
  1 <= n ->
  let '(y, m, d) := ord2ymd n in
  ymd2ord y m d = n /\ 1 <= y /\ 1 <= m <= 12 /\ 1 <= d <= days_in_month y m
  /\ (n <= MAXORDINAL -> y <= MAXYEAR).
Proof.
  intros Hn. rewrite ord2ymd_unfold. cbv zeta.
  set (n0 := n - 1).
  assert (H0 : 0 <= n0) by (subst n0; lia).
  pose proof (Z.div_mod n0 146097 ltac:(lia)) as E1.
  pose proof (Z.mod_pos_bound n0 146097 ltac:(lia)) as B1.
  set (a := n0 / 146097) in *. set (r1 := n0 mod 146097) in *.
  pose proof (Z.div_mod r1 36524 ltac:(lia)) as E2.
  pose proof (Z.mod_pos_bound r1 36524 ltac:(lia)) as B2.
  set (b := r1 / 36524) in *. set (r2 := r1 mod 36524) in *.
  pose proof (Z.div_mod r2 1461 ltac:(lia)) as E3.
  pose proof (Z.mod_pos_bound r2 1461 ltac:(lia)) as B3.
  set (c := r2 / 1461) in *. set (r3 := r2 mod 1461) in *.
  pose proof (Z.div_mod r3 365 ltac:(lia)) as E4.
  pose proof (Z.mod_pos_bound r3 365 ltac:(lia)) as B4.
  set (d := r3 / 365) in *. set (r4 := r3 mod 365) in *.
  clearbody a r1 b r2 c r3 d r4.
  assert (Ha : 0 <= a) by lia.
  assert (Hb : 0 <= b <= 4) by lia.
  assert (Hc : 0 <= c <= 24) by lia.
  assert (Hd : 0 <= d <= 4) by lia.
  destruct (Z.eqb_spec d 4) as [Hd4 | Hd4]; simpl orb.
  - (* last day of a leap year *)
    subst d. unfold ymd2ord, days_in_month, days_before_month.
    replace (a * 400 + 1 + b * 100 + c * 4 + 4 - 1)
      with (400 * a + 100 * b + 4 * c + 3 + 1) by lia.
    assert (b <= 3) by lia.
    rewrite days_before_year_decomp, is_leap_decomp by lia.
    assert (Hl : (negb (c =? 24) || (b =? 3)) = true).
    { destruct (Z.eqb_spec c 24), (Z.eqb_spec b 3); try reflexivity. lia. }
    rewrite Hl. cbn. unfold MAXORDINAL, MAXYEAR. lia.
  - destruct (Z.eqb_spec b 4) as [Hb4 | Hb4].
    + subst b. unfold ymd2ord, days_in_month, days_before_month.
      assert (c = 0 /\ d = 0) as [-> ->] by lia.
      replace (a * 400 + 1 + 4 * 100 + 0 * 4 + 0 - 1)
        with (400 * a + 100 * 3 + 4 * 24 + 3 + 1) by lia.
      rewrite days_before_year_decomp, is_leap_decomp by lia.
      cbn. unfold MAXORDINAL, MAXYEAR. lia.
    + assert (b <= 3) by lia. assert (d <= 3) by lia.
      pose proof (month_day_spec ((d =? 3) && (negb (c =? 24) || (b =? 3))) r4) as Hmd.
      destruct (month_day _ r4) as [m dd].
      unfold ymd2ord, days_in_month, days_before_month.
      replace (a * 400 + 1 + b * 100 + c * 4 + d)
        with (400 * a + 100 * b + 4 * c + d + 1) by lia.
      rewrite days_before_year_decomp, is_leap_decomp by lia.
      set (leap := (d =? 3) && (negb (c =? 24) || (b =? 3))) in *.
      assert (Hr4 : 0 <= r4 < 365 + (if leap then 1 else 0)).
      { destruct leap; lia. }
      specialize (Hmd Hr4). destruct Hmd as (Hm & Hdd & Hsum).
      unfold MAXORDINAL, MAXYEAR.
      repeat split; try lia.
      clearbody leap.
      destruct (Z.eqb_spec m 2) as [-> | ?]; destruct leap; simpl in *; lia.
Qed.

Lemma check_fields_true y m d hh mm ss us :
  check_fields y m d hh mm ss us = true <->
  (MINYEAR <= y <= MAXYEAR /\ 1 <= m <= 12 /\ 1 <= d <= days_in_month y m
   /\ 0 <= hh <= 23 /\ 0 <= mm <= 59 /\ 0 <= ss <= 59 /\ 0 <= us <= 999999).
Proof.
  unfold check_fields. rewrite !andb_true_iff, !Z.leb_le. tauto.
Qed.

Lemma new_ok y m d hh :
  MINYEAR <= y <= MAXYEAR -> 1 <= m <= 12 -> 1 <= d <= days_in_month y m ->
  0 <= hh <= 23 ->
  new y m d hh = Ok (mk_datetime y m d hh 0 0 0).
Proof.
  intros. unfold new.
  assert (E : check_fields y m d hh 0 0 0 = true)
    by (apply check_fields_true; lia).
  by rewrite E.
Qed.

Lemma add_ok t delta :
  in_range (to_us t + delta) ->
  exists t', add t delta = Ok t' /\ valid t' /\ to_us t' = to_us t + delta.
Proof.
  unfold in_range, MAXORDINAL. intros Hr. unfold add.
  set (total := to_us t + delta) in *. clearbody total.
  assert (Hd : 1 <= total / US_PER_DAY <= MAXORDINAL).
  { unfold US_PER_DAY, US_PER_SECOND, MAXORDINAL. Z.div_mod_to_equations. lia. }
  assert (E : (0 <? total / US_PER_DAY) && (total / US_PER_DAY <=? MAXORDINAL) = true).
  { apply andb_true_iff. rewrite Z.ltb_lt, Z.leb_le. lia. }
  rewrite E.
  pose proof (ord2ymd_spec (total / US_PER_DAY) ltac:(lia)) as Hs.
  destruct (ord2ymd (total / US_PER_DAY)) as [[y m] d].
  destruct Hs as (Hord & Hy & Hm & Hdd & Hmax).
  eexists. split; [reflexivity|]. split.
  - unfold valid. simpl. apply check_fields_true.
    unfold MINYEAR. repeat split; try lia.
    all: unfold US_PER_DAY, US_PER_SECOND; Z.div_mod_to_equations; lia.
  - unfold to_us, toordinal. simpl. rewrite Hord.
    unfold US_PER_HOUR, US_PER_DAY, US_PER_SECOND. Z.div_mod_to_equations. lia.
Qed.

Lemma valid_fields t :
  valid t ->
  MINYEAR <= year t <= MAXYEAR /\ 1 <= month t <= 12
  /\ 1 <= day t <= days_in_month (year t) (month t)
  /\ 0 <= hour t <= 23 /\ 0 <= minute t <= 59 /\ 0 <= second t <= 59
  /\ 0 <= microsecond t <= 999999.
Proof. intros H. by apply check_fields_true. Qed.

(** Truncating a valid datetime to the hour goes back by less than an
    hour. *)
Lemma to_us_floor_hour t hh :
  valid t -> 0 <= hh <= hour t ->
  let t' := mk_datetime (year t) (month t) (day t) hh 0 0 0 in
  valid t'
  /\ to_us t' = toordinal t * US_PER_DAY + hh * US_PER_HOUR
  /\ to_us t' <= to_us t
  /\ to_us t - to_us t' < (hour t - hh + 1) * US_PER_HOUR.
Proof.
  intros Hv Hh. apply valid_fields in Hv as Hf. cbv zeta.
  split; [apply check_fields_true; simpl; lia|].
  unfold to_us, toordinal, US_PER_HOUR, US_PER_SECOND. simpl. lia.
Qed.

Lemma toordinal_range t : valid t -> 1 <= toordinal t <= MAXORDINAL.
Proof.
  intros Hv. apply valid_fields in Hv as (Hy & Hm & Hd & _).
  unfold toordinal, ymd2ord, days_before_month, days_in_month,
    days_before_year, is_leap, MINYEAR, MAXYEAR, MAXORDINAL in *.
  set (y := year t) in *. set (m := month t) in *. set (d := day t) in *.
  clearbody y m d.
  assert (Hc : m = 1 \/ m = 2 \/ m = 3 \/ m = 4 \/ m = 5 \/ m = 6 \/ m = 7
               \/ m = 8 \/ m = 9 \/ m = 10 \/ m = 11 \/ m = 12) by lia.
  repeat (destruct Hc as [-> | Hc]); try subst m; simpl in *;
    repeat match goal with
      | H : context [?x =? ?y] |- _ => destruct (Z.eqb_spec x y); simpl in H
      | |- context [?x =? ?y] => destruct (Z.eqb_spec x y); simpl
      end; Z.div_mod_to_equations; lia.
Qed.

Lemma valid_in_range t : valid t -> in_range (to_us t).
Proof.
  intros Hv. pose proof (toordinal_range t Hv) as Ho.
  apply valid_fields in Hv.
  unfold in_range, to_us, US_PER_DAY, US_PER_HOUR, US_PER_SECOND, MAXORDINAL in *.
  lia.
Qed.

Lemma to_us_mod_hour t :
  valid t ->
  to_us t mod US_PER_HOUR
  = minute t * (60 * US_PER_SECOND) + second t * US_PER_SECOND + microsecond t.
Proof.
  intros Hv. apply valid_fields in Hv as Hf.
  unfold to_us, US_PER_DAY, US_PER_HOUR, US_PER_SECOND.
  symmetry. apply Z.mod_unique_pos with (q := toordinal t * 24 + hour t); lia.
Qed.

Lemma quot_hours k : whole_hours (k * US_PER_HOUR) = k.
Proof.
  unfold whole_hours. apply Z.quot_mul. unfold US_PER_HOUR, US_PER_SECOND. lia.
Qed.

End DatetimeFacts.

(** ** The time resolver *)

Module ResolverFacts.
Import datetime PyStrFacts DatetimeFacts.

Lemma getDownloadTimeInfo_ok utcnow :
  in_range (to_us utcnow - 3 * US_PER_HOUR) ->
  exists timeIdentifier downloadTime,
    __getDownloadTimeInfo utcnow = Ok (timeIdentifier, downloadTime)
    /\ valid downloadTime
    /\ PyStr.last_chars 2 timeIdentifier ∈ run_hours
    /\ hour downloadTime mod 6 = 0
    /\ to_us downloadTime mod US_PER_HOUR = 0
    /\ to_us utcnow - 9 * US_PER_HOUR < to_us downloadTime
       <= to_us utcnow - 3 * US_PER_HOUR.
Proof.
  intros Hr. unfold __getDownloadTimeInfo, sub, DATASET_DELAY, hours.
  destruct (add_ok utcnow (- (3 * US_PER_HOUR))) as (lastTime & -> & Hv & Hus).
  { by replace (to_us utcnow + - (3 * US_PER_HOUR))
      with (to_us utcnow - 3 * US_PER_HOUR) by lia. }
  simpl. apply valid_fields in Hv as Hf.
  set (downloadHour := hour lastTime / 6 * 6).
  assert (HdH : 0 <= downloadHour <= hour lastTime
                /\ hour lastTime - downloadHour <= 5
                /\ downloadHour mod 6 = 0)
    by (subst downloadHour; Z.div_mod_to_equations; lia).
  rewrite new_ok by lia. simpl.
  destruct (to_us_floor_hour lastTime downloadHour Hv ltac:(lia))
    as (Hv' & Hus' & Hle & Hlt).
  do 2 eexists. split; [reflexivity|]. split; [exact Hv'|].
  repeat split.
  - rewrite <- !append_assoc.
    assert (Hc : downloadHour = 0 \/ downloadHour = 6 \/ downloadHour = 12
                 \/ downloadHour = 18) by lia.
    clearbody downloadHour. unfold run_hours.
    destruct Hc as [-> | [-> | [-> | ->]]];
      match goal with
      | |- context [ PyStr.last_chars 2 (?a ++ PyStr.fmt_d true 2 ?h) ] =>
          let v := eval vm_compute in (PyStr.fmt_d true 2 h) in
          change (PyStr.fmt_d true 2 h) with v;
          rewrite (last_chars_app a v : PyStr.last_chars 2 (a ++ v) = v)
      end; repeat constructor.
  - tauto.
  - rewrite Hus'. unfold US_PER_DAY, US_PER_HOUR, US_PER_SECOND.
    Z.div_mod_to_equations. lia.
  - unfold US_PER_HOUR, US_PER_SECOND in *. lia.
  - unfold US_PER_HOUR, US_PER_SECOND in *. lia.
Qed.

Lemma forecast_diff_ok utcnow1 utcnow2 lead :
  valid utcnow2 ->
  in_range (to_us utcnow1 - 3 * US_PER_HOUR) ->
  in_range (to_us utcnow2 - to_us utcnow2 mod US_PER_HOUR + hours lead) ->
  exists timeIdentifier downloadTime d,
    __getDownloadTimeInfo utcnow1 = Ok (timeIdentifier, downloadTime)
    /\ forecast_diff utcnow1 utcnow2 lead = Ok (timeIdentifier, d)
    /\ d * US_PER_HOUR
       = to_us utcnow2 - to_us utcnow2 mod US_PER_HOUR + hours lead
         - to_us downloadTime
    /\ to_us utcnow1 - 9 * US_PER_HOUR < to_us downloadTime
       <= to_us utcnow1 - 3 * US_PER_HOUR.
Proof.
  intros Hv2 Hr1 Hr2.
  destruct (getDownloadTimeInfo_ok utcnow1 Hr1)
    as (tid & dl & Hinfo & Hvdl & _ & _ & Hmod & Hrun).
  apply valid_fields in Hv2 as Hf2.
  destruct (to_us_floor_hour utcnow2 (hour utcnow2) Hv2 ltac:(lia))
    as (Hvr & Husr & _ & _).
  pose proof (new_ok (year utcnow2) (month utcnow2) (day utcnow2)
                (hour utcnow2) ltac:(lia) ltac:(lia) ltac:(lia) ltac:(lia))
    as Hnew.
  set (rounded := mk_datetime _ _ _ _ 0 0 0) in *.
  assert (Hfloor : to_us rounded = to_us utcnow2 - to_us utcnow2 mod US_PER_HOUR).
  { rewrite to_us_mod_hour by done. rewrite Husr. unfold to_us. lia. }
  destruct (add_ok rounded (hours lead)) as (ft & Hadd & Hvft & Husft).
  { by rewrite Hfloor. }
  apply Z.mod_divide in Hmod as [q Hq];
    [|unfold US_PER_HOUR, US_PER_SECOND; lia].
  set (k := toordinal utcnow2 * 24 + hour utcnow2 + lead - q).
  assert (Hk : to_us ft - to_us dl = k * US_PER_HOUR).
  { rewrite Husft, Husr, Hq. unfold k, hours, US_PER_DAY, US_PER_HOUR. lia. }
  exists tid, dl, k. split; [exact Hinfo|]. split.
  - unfold forecast_diff. rewrite Hinfo, bind_Ok, Hnew, bind_Ok, Hadd, bind_Ok.
    unfold diff. by rewrite Hk, quot_hours.
  - split; [|exact Hrun]. rewrite <- Hk, Husft, Hfloor. reflexivity.
Qed.

End ResolverFacts.

Import PyStrFacts DatetimeFacts ResolverFacts.

(** ** Strings, continued *)

Lemma lower_upper_char c : PyStr.lower_char (PyStr.upper_char c) = PyStr.lower_char c.
Proof. destruct c as [[] [] [] [] [] [] [] []]; reflexivity. Qed.

Lemma lower_upper s : PyStr.lower (PyStr.upper s) = PyStr.lower s.
Proof.
  induction s as [|c s IH]; [done|]. simpl. by rewrite lower_upper_char, IH.
Qed.

Lemma fmt_d_zero_padded3 h :
  0 <= h <= 999 -> PyStr.fmt_d true 3 h = zero_padded3 h.
Proof.
  intros Hh.
  assert (Hall : forallb
            (fun n => String.eqb (PyStr.fmt_d true 3 (Z.of_nat n))
                                 (zero_padded3 (Z.of_nat n)))
            (seq 0 1000) = true) by (vm_compute; reflexivity).
  rewrite forallb_forall in Hall.
  specialize (Hall (Z.to_nat h)).
  rewrite Z2Nat.id in Hall by lia.
  apply String.eqb_eq, Hall, in_seq. lia.
Qed.

Lemma suffix_last_chars (pre s u : string) :
  u = pre ++ s -> PyStr.last_chars (String.length s) u = s.
Proof. intros ->. apply last_chars_app. Qed.

Lemma append_empty_r (s : string) : s ++ "" = s.
Proof. induction s as [|c s IH]; [done|]. by rewrite append_cons, IH. Qed.

Lemma append_eq_split (x y u v : string) :
  x ++ y = u ++ v ->
  (exists w, u = x ++ w /\ y = w ++ v) \/ (exists w, x = u ++ w /\ v = w ++ y).
Proof.
  revert u. induction x as [|c x IH]; intros u H.
  - left. by exists u.
  - destruct u as [|c' u].
    + right. by exists (String c x).
    + rewrite !append_cons in H. injection H as -> H.
      destruct (IH u H) as [[w [-> ->]] | [w [-> ->]]];
        [left | right]; by exists w.
Qed.

Lemma drop_split (k : nat) (s : string) :
  (k <= String.length s)%nat ->
  exists pre, s = pre ++ PyStr.drop k s /\ String.length pre = k.
Proof.
  revert s. induction k as [|k IH]; intros s Hk.
  - by exists "".
  - destruct s as [|c s]; simpl in Hk; [lia|].
    destruct (IH s ltac:(lia)) as (pre & Hs & Hl).
    exists (String c pre). rewrite append_cons. simpl. split; [by f_equal | lia].
Qed.

Lemma endswith_spec (s p : string) :
  PyStr.endswith s p = true <-> exists pre, s = pre ++ p.
Proof.
  unfold PyStr.endswith. rewrite andb_true_iff, Nat.leb_le, String.eqb_eq.
  split.
  - intros [Hl Hp]. unfold PyStr.last_chars in Hp.
    destruct (drop_split (String.length s - String.length p) s ltac:(lia))
      as (pre & Hs & _).
    exists pre. by rewrite Hp in Hs.
  - intros [pre ->]. split; [rewrite length_append; lia | apply last_chars_app].
Qed.

Lemma endswith_comparable (s p q : string) :
  PyStr.endswith s p = true -> PyStr.endswith s q = true ->
  PyStr.endswith p q = true \/ PyStr.endswith q p = true.
Proof.
  rewrite !endswith_spec. intros [a ->] [b H].
  destruct (append_eq_split _ _ _ _ H) as [[w [_ ->]] | [w [_ ->]]];
    [left | right]; by exists w.
Qed.

(** ** The resource locator *)

Lemma valid_hours_true h :
  valid_hours h = true <-> 0 <= h <= 180 /\ (78 < h -> h mod 3 = 0).
Proof.
  unfold valid_hours. rewrite !andb_true_iff, !Z.leb_le.
  destruct (Z.ltb_spec 78 h); [rewrite Z.eqb_eq|]; intuition lia.
Qed.

Lemma getURL_ok cat v name level band r h :
  cat !! v = Some (name, level, band) ->
  valid_hours h = true ->
  __getURL cat v r h =
  Ok ("https://opendata.dwd.de/weather/icon/global/grib/"
      ++ PyStr.last_chars 2 r ++ "/" ++ PyStr.lower name ++ "/"
      ++ "ICON_iko_" ++ level ++ "_elements_world_" ++ PyStr.upper name
      ++ "_" ++ r ++ "_" ++ PyStr.fmt_d true 3 h ++ ".grib2.bz2").
Proof.
  intros Hv Hh. unfold __getURL, __getDatasetFilename. rewrite Hv, Hh.
  simpl. by rewrite !append_assoc.
Qed.

Lemma getURL_invalid cat v name level band r h :
  cat !! v = Some (name, level, band) ->
  valid_hours h = false ->
  __getURL cat v r h = Raise invalid_forecast_hour.
Proof. intros Hv Hh. unfold __getURL. by rewrite Hv, Hh. Qed.

Lemma getDatasetFilename_ok cat v name level band r h ending :
  cat !! v = Some (name, level, band) ->
  __getDatasetFilename cat v r h ending =
  Ok ("ICON_iko_" ++ level ++ "_elements_world_" ++ PyStr.upper name
      ++ "_" ++ r ++ "_" ++ PyStr.fmt_d true 3 h ++ ending).
Proof. intros Hv. unfold __getDatasetFilename. by rewrite Hv. Qed.

(** ** The horizon and the fetch orchestrator *)

Lemma quantize_horizon_spec d :
  quantize_horizon d <= d
  /\ (0 <= d -> 0 <= quantize_horizon d <= 180)
  /\ (d <= 78 -> quantize_horizon d = d)
  /\ (78 < d -> quantize_horizon d = Z.min 180 (3 * (d / 3)))
  /\ (0 <= d -> valid_hours (quantize_horizon d) = true).
Proof.
  unfold quantize_horizon.
  destruct (Z.ltb_spec 78 d) as [H78 | H78].
  - assert (Hq : d - 2 <= d / 3 * 3 <= d /\ (d / 3 * 3) mod 3 = 0)
      by (split; [Z.div_mod_to_equations; lia | apply Z.mod_mul; lia]).
    destruct (Z.ltb_spec 180 (d / 3 * 3)) as [H180 | H180].
    + repeat split; lia.
    + repeat split; try lia. intros _. apply valid_hours_true. lia.
  - destruct (Z.ltb_spec 180 d) as [H180 | H180]; [lia|].
    repeat split; try lia. intros ?. apply valid_hours_true. lia.
Qed.

Lemma quantize_horizon_neg d : d < 0 -> quantize_horizon d = d.
Proof. intros. apply quantize_horizon_spec. lia. Qed.

Section OrchestratorFacts.

Variable ICON_VARIABLES : gmap string (string * string * Z).
Variable Archive : Type.
Variable downloadAndCompile :
  string -> Z -> gmap string string -> result Archive.

Lemma build_urls_ok ids tid h acc :
  Forall (fun v => is_Some (ICON_VARIABLES !! v)) ids ->
  valid_hours h = true ->
  exists urls, build_urls ICON_VARIABLES ids tid h acc = Ok urls.
Proof.
  intros Hids Hh. revert acc.
  induction Hids as [|v ids [[[name level] band] Hv] _ IH]; intros acc.
  - by eexists.
  - simpl. rewrite (getURL_ok _ v name level band) by done. apply IH.
Qed.

Lemma build_urls_invalid ids tid h acc :
  ids <> [] ->
  Forall (fun v => is_Some (ICON_VARIABLES !! v)) ids ->
  valid_hours h = false ->
  build_urls ICON_VARIABLES ids tid h acc = Raise invalid_forecast_hour.
Proof.
  intros Hne Hids Hh.
  destruct Hids as [|v ids [[[name level] band] Hv] _]; [done|].
  simpl. by rewrite (getURL_invalid _ v name level band).
Qed.

Lemma catalog_ids_in :
  Forall (fun v => is_Some (ICON_VARIABLES !! v)) (map_to_list ICON_VARIABLES).*1.
Proof.
  apply Forall_forall. intros v Hv.
  apply list_elem_of_fmap in Hv as [[v' x] [-> Hin]].
  apply elem_of_map_to_list in Hin. by eexists.
Qed.

Lemma catalog_ids_nonempty :
  ICON_VARIABLES <> ∅ -> (map_to_list ICON_VARIABLES).*1 <> [].
Proof.
  intros Hne Hnil. apply fmap_nil_inv in Hnil.
  by apply map_to_list_empty_iff in Hnil.
Qed.

End OrchestratorFacts.

(** ** Paths *)

Lemma has_sep_app (a b : string) :
  os.has_sep (a ++ b) = os.has_sep a || os.has_sep b.
Proof.
  induction a as [|c a IH]; [done|].
  rewrite append_cons. simpl. rewrite IH. by rewrite orb_assoc.
Qed.

Lemma basename_no_sep (n : string) : os.has_sep n = false -> os.basename n = n.
Proof.
  destruct n as [|c n]; [done|]. simpl.
  intros [Hc Hn]%orb_false_iff. by rewrite Hn, Hc.
Qed.

Lemma basename_app_sep (a n : string) :
  os.has_sep n = false -> os.basename (a ++ String "/" n) = n.
Proof.
  intros Hn. induction a as [|c a IH].
  - simpl. by rewrite Hn.
  - rewrite append_cons. simpl.
    by rewrite has_sep_app, orb_true_r.
Qed.

Lemma startswith_sep_no_sep (n : string) :
  os.has_sep n = false -> PyStr.startswith "/" n = false.
Proof.
  destruct n as [|c n]; [done|]. cbn [os.has_sep PyStr.startswith].
  intros [Hc _]%orb_false_iff.
  rewrite Ascii.eqb_sym in Hc. by rewrite Hc.
Qed.

(** A path built by [os.path.join] from a name without separator is the
    name itself, for an empty directory, or ends in a separator and the
    name. *)
Lemma join_shape (d n : string) :
  os.has_sep n = false ->
  os.join d n = n \/ exists a, os.join d n = a ++ String "/" n.
Proof.
  intros Hn. unfold os.join. rewrite startswith_sep_no_sep by done.
  destruct (String.eqb_spec d "") as [-> | Hd]; simpl; [by left|].
  destruct (PyStr.endswith d "/") eqn:He.
  - apply endswith_spec in He as [a ->]. right. exists a.
    by rewrite append_assoc.
  - right. by exists d.
Qed.

Lemma basename_join (d n : string) :
  os.has_sep n = false -> os.basename (os.join d n) = n.
Proof.
  intros Hn. destruct (join_shape d n Hn) as [-> | [a ->]].
  - by apply basename_no_sep.
  - by apply basename_app_sep.
Qed.

Lemma join_inj (d n1 n2 : string) :
  os.has_sep n1 = false -> os.has_sep n2 = false ->
  os.join d n1 = os.join d n2 -> n1 = n2.
Proof.
  intros H1 H2 H. apply (f_equal os.basename) in H.
  by rewrite !basename_join in H.
Qed.

Lemma endswith_app_sep (a n p : string) :
  os.has_sep p = false ->
  PyStr.endswith (a ++ String "/" n) p = PyStr.endswith n p.
Proof.
  intros Hp. apply eq_true_iff_eq. rewrite !endswith_spec. split.
  - intros [pre H].
    change (a ++ String "/" n) with (a ++ "/" ++ n) in H.
    rewrite <- append_assoc in H.
    destruct (append_eq_split _ _ _ _ H) as [[w [_ ->]] | [w [Hw ->]]].
    + by exists w.
    + destruct w as [|c w]; [by exists ""|]. exfalso.
      assert (Hs : os.has_sep (String c w) = true).
      { destruct (append_eq_split _ _ _ _ Hw) as [[u [_ Hu]] | [u [_ ->]]].
        - destruct u as [|c' u].
          + injection Hu as <- <-. reflexivity.
          + rewrite append_cons in Hu. injection Hu as _ Hu.
            by destruct u.
        - by rewrite has_sep_app, orb_true_r. }
      rewrite has_sep_app, Hs in Hp. discriminate Hp.
  - intros [pre ->]. exists (a ++ String "/" pre).
    rewrite append_assoc. by rewrite append_cons.
Qed.

Lemma endswith_join (d n p : string) :
  os.has_sep n = false -> os.has_sep p = false ->
  PyStr.endswith (os.join d n) p = PyStr.endswith n p.
Proof.
  intros Hn Hp. destruct (join_shape d n Hn) as [-> | [a ->]]; [done|].
  by apply endswith_app_sep.
Qed.

(** ** The retention janitor *)

Lemma filterDirWithSuffix_In tempDir listing suffixes p :
  In p (filterDirWithSuffix tempDir listing suffixes) <->
  exists e, In e listing /\ p = os.join tempDir (os.d_name e)
            /\ os.d_isfile e = true
            /\ existsb (PyStr.endswith (os.d_name e)) suffixes = true.
Proof.
  unfold filterDirWithSuffix. rewrite in_map_iff. split.
  - intros (e & <- & He). apply filter_In in He as [He Hc].
    apply andb_true_iff in Hc as [Hf Hs]. by exists e.
  - intros (e & He & -> & Hf & Hs). exists e. split; [done|].
    apply filter_In. split; [done|]. by rewrite Hf, Hs.
Qed.

Lemma isOlderThan_spec a b :
  isOlderThan a b = true <-> datetime.to_us a < datetime.to_us b.
Proof.
  unfold isOlderThan, datetime.positive, datetime.diff. rewrite Z.ltb_lt. lia.
Qed.

Lemma stale_join pattern before tempDir name :
  os.has_sep name = false ->
  stale pattern before (os.join tempDir name) = stale pattern before name.
Proof.
  intros Hn. unfold stale. by rewrite basename_join, basename_no_sep.
Qed.

Lemma suffix_classes_disjoint name :
  existsb (PyStr.endswith name) grib_suffixes = true ->
  existsb (PyStr.endswith name) icondb_suffixes = true -> False.
Proof.
  rewrite !existsb_exists. intros (p & Hp & Hnp) (q & Hq & Hnq).
  pose proof (endswith_comparable name p q Hnp Hnq) as Hc.
  simpl in Hp, Hq.
  destruct Hp as [<- | [<- | [<- | []]]];
    destruct Hq as [<- | [<- | [<- | []]]];
    vm_compute in Hc; destruct Hc; discriminate.
Qed.

Lemma unlink_all tempDir delList listing e :
  In e (foldl (fun l each => unlink tempDir each l) listing delList) <->
  In e listing /\ ~ In (os.join tempDir (os.d_name e)) delList.
Proof.
  revert listing. induction delList as [|p delList IH]; intros listing; simpl.
  - tauto.
  - rewrite IH. unfold unlink. rewrite filter_In, negb_true_iff.
    destruct (String.eqb_spec (os.join tempDir (os.d_name e)) p) as [Heq | Hne].
    + split; [intros [[_ ?] _]; done | intros [_ H]; exfalso; apply H; by left].
    + split.
      * intros [[? _] ?]. split; [done|]. intros [? | ?]; [by apply Hne | done].
      * intros [? H]. split; [by split|]. intros ?. apply H. by right.
Qed.

Lemma sub_ok t delta :
  datetime.in_range (datetime.to_us t - delta) ->
  exists t', datetime.sub t delta = Ok t' /\ datetime.valid t'
             /\ datetime.to_us t' = datetime.to_us t - delta.
Proof.
  intros Hr. rewrite <- Z.add_opp_r in Hr. unfold datetime.sub.
  destruct (add_ok t (- delta) Hr) as (t' & Ha & Hv & Hus).
  exists t'. rewrite Z.add_opp_r in Hus. done.
Qed.

Lemma cleanUp_ok utcnow archiveLife tempDir listing :
  datetime.in_range (datetime.to_us utcnow - datetime.hours archiveLife) ->
  datetime.in_range (datetime.to_us utcnow - datetime.hours 1) ->
  exists before1 before2,
    datetime.to_us before1 = datetime.to_us utcnow - datetime.hours archiveLife
    /\ datetime.to_us before2 = datetime.to_us utcnow - datetime.hours 1
    /\ cleanUp utcnow archiveLife tempDir listing
       = let delList :=
           (List.filter (stale Re.run_horizon_at before1)
              (filterDirWithSuffix tempDir listing grib_suffixes)
            ++ List.filter (stale Re.forecast_at before2)
                 (filterDirWithSuffix tempDir listing icondb_suffixes))%list in
         Ok (delList,
             foldl (fun l each => unlink tempDir each l) listing delList).
Proof.
  intros H1 H2.
  destruct (sub_ok utcnow (datetime.hours archiveLife) H1)
    as (b1 & Hb1 & _ & Hus1).
  destruct (sub_ok utcnow (datetime.hours 1) H2) as (b2 & Hb2 & _ & Hus2).
  exists b1, b2. split; [exact Hus1|]. split; [exact Hus2|].
  unfold cleanUp. rewrite Hb1, bind_Ok, Hb2, bind_Ok. reflexivity.
Qed.

Lemma stale_name pattern before name :
  os.has_sep name = false ->
  stale pattern before name
  = match Re.search pattern name with
    | None => true
    | Some g =>
        match timeIdentifierToDatetime g with
        | Raise _ => true
        | Ok runTime => isOlderThan runTime before
        end
    end.
Proof. intros Hn. unfold stale. by rewrite basename_no_sep. Qed.

Lemma listdir_ok_name listing e :
  listdir_ok listing -> In e listing -> os.has_sep (os.d_name e) = false.
Proof.
  intros [_ Hf] He. rewrite Forall_forall in Hf. apply Hf.
  by apply list_elem_of_In.
Qed.

Lemma listdir_ok_unique listing e e' :
  listdir_ok listing -> In e listing -> In e' listing ->
  os.d_name e = os.d_name e' -> e = e'.
Proof.
  intros [Hnd _]. induction listing as [|x l IH]; simpl; [done|].
  simpl in Hnd. apply NoDup_cons in Hnd as [Hx Hnd].
  intros [-> | He] [-> | He'] Hn; [done | | | by apply IH].
  - exfalso. apply Hx. rewrite Hn. apply list_elem_of_In, in_map.
    done.
  - exfalso. apply Hx. rewrite <- Hn. apply list_elem_of_In, in_map.
    done.
Qed.

Lemma cleanUp_spec utcnow archiveLife tempDir listing :
  datetime.in_range (datetime.to_us utcnow - datetime.hours archiveLife) ->
  datetime.in_range (datetime.to_us utcnow - datetime.hours 1) ->
  listdir_ok listing ->
  exists before1 before2 delList remaining,
    datetime.to_us before1 = datetime.to_us utcnow - datetime.hours archiveLife
    /\ datetime.to_us before2 = datetime.to_us utcnow - datetime.hours 1
    /\ cleanUp utcnow archiveLife tempDir listing = Ok (delList, remaining)
    /\ (forall e, In e listing ->
        (In (os.join tempDir (os.d_name e)) delList <->
         os.d_isfile e = true
         /\ ((existsb (PyStr.endswith (os.d_name e)) grib_suffixes = true
              /\ stale Re.run_horizon_at before1 (os.d_name e) = true)
             \/ (existsb (PyStr.endswith (os.d_name e)) icondb_suffixes = true
                 /\ stale Re.forecast_at before2 (os.d_name e) = true))))
    /\ (forall p, In p delList ->
        exists e, In e listing /\ p = os.join tempDir (os.d_name e))
    /\ (forall e, In e remaining <->
        In e listing /\ ~ In (os.join tempDir (os.d_name e)) delList).
Proof.
  intros H1 H2 Hok.
  destruct (cleanUp_ok utcnow archiveLife tempDir listing H1 H2)
    as (b1 & b2 & Hb1 & Hb2 & Hc).
  exists b1, b2. eexists. eexists.
  split; [exact Hb1|]. split; [exact Hb2|]. split; [exact Hc|].
  split; [|split].
  - intros e He. pose proof (listdir_ok_name listing e Hok He) as Hn.
    rewrite in_app_iff, !filter_In, !filterDirWithSuffix_In.
    rewrite !stale_join by done. split.
    + intros [[(e' & He' & Hp & Hf & Hs) Hst] | [(e' & He' & Hp & Hf & Hs) Hst]];
        apply join_inj in Hp; try (by eapply listdir_ok_name);
        apply (listdir_ok_unique listing e e' Hok He He') in Hp as <-;
        (split; [done|]); [left | right]; done.
    + intros [Hf [[Hs Hst] | [Hs Hst]]]; [left | right];
        (split; [by exists e | done]).
  - intros p. rewrite in_app_iff, !filter_In, !filterDirWithSuffix_In.
    intros [[(e & He & Hp & _) _] | [(e & He & Hp & _) _]]; by exists e.
  - intros e. apply unlink_all.
Qed.

Lemma sample_listing_ok : listdir_ok sample_listing.
Proof.
  split.
  - apply NoDup_ListNoDup. vm_compute.
    repeat (constructor; [intros H; vm_compute in H; intuition discriminate|]).
    constructor.
  - repeat constructor.
Qed.

(** A regular file of a class whose name gives no run time is deleted. *)
Lemma cleanUp_no_run_time utcnow archiveLife tempDir listing :
  datetime.in_range (datetime.to_us utcnow - datetime.hours archiveLife) ->
  datetime.in_range (datetime.to_us utcnow - datetime.hours 1) ->
  listdir_ok listing ->
  exists delList remaining,
    cleanUp utcnow archiveLife tempDir listing = Ok (delList, remaining)
    /\ forall name,
        In (os.mk_dirent name true) listing ->
        (existsb (PyStr.endswith name) grib_suffixes = true
         /\ (Re.search Re.run_horizon_at name = None
             \/ exists g err, Re.search Re.run_horizon_at name = Some g
                              /\ timeIdentifierToDatetime g = Raise err))
        \/ (existsb (PyStr.endswith name) icondb_suffixes = true
            /\ (Re.search Re.forecast_at name = None
                \/ exists g err, Re.search Re.forecast_at name = Some g
                                 /\ timeIdentifierToDatetime g = Raise err)) ->
        In (os.join tempDir name) delList
        /\ ~ In (os.mk_dirent name true) remaining.
Proof.
  intros H1 H2 Hok.
  destruct (cleanUp_spec utcnow archiveLife tempDir listing H1 H2 Hok)
    as (b1 & b2 & delList & remaining & _ & _ & Hc & Hin & _ & Hrem).
  exists delList, remaining. split; [exact Hc|]. intros name He H.
  pose proof (listdir_ok_name listing _ Hok He) as Hn. simpl in Hn.
  assert (Hdel : In (os.join tempDir name) delList).
  { apply (Hin _ He). simpl. split; [done|]. rewrite !stale_name by done.
    destruct H as [[Hs [-> | (g & err & -> & ->)]]
                  | [Hs [-> | (g & err & -> & ->)]]];
      [left | left | right | right]; done. }
  split; [exact Hdel|]. rewrite Hrem. simpl. tauto.
Qed.

(** ** The archive index *)

Lemma listDatabase_step_plain tempDir ret e :
  os.has_sep (os.d_name e) = false ->
  listDatabase_step tempDir ret e
  = if PyStr.endswith (os.d_name e) ".icondb" && os.d_isfile e then
      match Re.search Re.forecast_at (os.d_name e) with
      | None => ret
      | Some timeIdentifier =>
          match timeIdentifierToDatetime timeIdentifier with
          | Raise _ => ret
          | Ok forecastTime =>
              <[timeIdentifier :=
                  mk_archive_info (os.join tempDir (os.d_name e)) forecastTime]>
                ret
          end
      end
    else ret.
Proof.
  intros Hn. unfold listDatabase_step. rewrite endswith_join by done.
  destruct (PyStr.endswith (os.d_name e) ".icondb"); [|done].
  by destruct (os.d_isfile e).
Qed.

Lemma listDatabase_step_skip tempDir ret e :
  os.has_sep (os.d_name e) = false ->
  PyStr.endswith (os.d_name e) ".icondb" = false
  \/ os.d_isfile e = false
  \/ Re.search Re.forecast_at (os.d_name e) = None
  \/ (exists g err, Re.search Re.forecast_at (os.d_name e) = Some g
                    /\ timeIdentifierToDatetime g = Raise err) ->
  listDatabase_step tempDir ret e = ret.
Proof.
  intros Hn H. rewrite listDatabase_step_plain by done.
  destruct H as [-> | [-> | [-> | (g & err & -> & ->)]]];
    [done | by rewrite andb_false_r | by destruct (_ && _)
    | by destruct (_ && _)].
Qed.

Lemma listDatabase_skip tempDir l1 e l2 :
  os.has_sep (os.d_name e) = false ->
  PyStr.endswith (os.d_name e) ".icondb" = false
  \/ os.d_isfile e = false
  \/ Re.search Re.forecast_at (os.d_name e) = None
  \/ (exists g err, Re.search Re.forecast_at (os.d_name e) = Some g
                    /\ timeIdentifierToDatetime g = Raise err) ->
  listDatabase tempDir (l1 ++ e :: l2) = listDatabase tempDir (l1 ++ l2).
Proof.
  intros Hn H. unfold listDatabase. rewrite !foldl_app. simpl.
  by rewrite listDatabase_step_skip.
Qed.

Lemma listDatabase_step_add tempDir ret name g t :
  os.has_sep name = false ->
  PyStr.endswith name ".icondb" = true ->
  Re.search Re.forecast_at name = Some g ->
  timeIdentifierToDatetime g = Ok t ->
  listDatabase_step tempDir ret (os.mk_dirent name true)
  = <[g := mk_archive_info (os.join tempDir name) t]> ret.
Proof.
  intros Hn He Hg Ht. rewrite listDatabase_step_plain by done. simpl.
  by rewrite He, Hg, Ht.
Qed.

(** * The claims *)

(** C1 (as amended): for a catalog variable named T_2M, run identifier
    2024010100 and horizon 6, [__getURL] returns the URL whose hour segment
    is the last two characters of the run identifier, 00, followed by
    /t_2m/ICON_iko_<level>_elements_world_T_2M_2024010100_006.grib2.bz2. *)
Theorem C1_getURL_T_2M cat v name level band :
  cat !! v = Some (name, level, band) ->
  PyStr.upper name = "T_2M" ->
  __getURL cat v "2024010100" 6 =
  Ok ("https://opendata.dwd.de/weather/icon/global/grib/00/t_2m/ICON_iko_"
      ++ level ++ "_elements_world_T_2M_2024010100_006.grib2.bz2").
Proof.
  intros Hv Hname.
  rewrite (getURL_ok cat v name level band) by done.
  rewrite Hname, <- lower_upper, Hname. reflexivity.
Qed.

Lemma C1_getURL_T_2M_witness :
  __getURL t2m_catalog "t_2m" "2024010100" 6 =
  Ok "https://opendata.dwd.de/weather/icon/global/grib/00/t_2m/ICON_iko_single-level_elements_world_T_2M_2024010100_006.grib2.bz2".
Proof.
  exact (C1_getURL_T_2M t2m_catalog "t_2m" "t_2m" "single-level" 1
           eq_refl eq_refl).
Defined.

(** C1 as stated fails: with the entry t_2m -> (t_2m, single-level, 1),
    the URL for run 2024010100 and horizon 6 does not end in
    /06/t_2m/ICON_iko_single-level_elements_world_T_2M_2024010100_006.grib2.bz2. *)
Lemma C1_hour_segment_is_not_06 :
  __getURL t2m_catalog "t_2m" "2024010100" 6 =
  Ok "https://opendata.dwd.de/weather/icon/global/grib/00/t_2m/ICON_iko_single-level_elements_world_T_2M_2024010100_006.grib2.bz2"
  /\ ~ (exists pre,
          __getURL t2m_catalog "t_2m" "2024010100" 6 =
          Ok (pre ++ "/06/t_2m/ICON_iko_single-level_elements_world_T_2M_2024010100_006.grib2.bz2")).
Proof.
  split; [reflexivity|]. intros [pre H].
  rewrite (getURL_ok t2m_catalog "t_2m" "t_2m" "single-level" 1) in H by done.
  injection H as H.
  apply suffix_last_chars in H. vm_compute in H. discriminate H.
Qed.

(** C2: for a catalog variable, a run identifier [r] whose last two
    characters are [a] and [b], and a valid horizon [h], [__getURL] returns
    exactly the base path, [a b], the lower-cased name as a path segment and
    the file name ICON_iko_<level>_elements_world_<NAME>_<r>_<hhh>.grib2.bz2,
    the horizon written with three digits. *)
Theorem C2_getURL_layout cat v name level band r pre a b h :
  cat !! v = Some (name, level, band) ->
  r = pre ++ String a (String b "") ->
  0 <= h <= 180 ->
  (78 < h -> h mod 3 = 0) ->
  __getURL cat v r h =
  Ok ("https://opendata.dwd.de/weather/icon/global/grib/"
      ++ String a (String b "") ++ "/" ++ PyStr.lower name ++ "/"
      ++ "ICON_iko_" ++ level ++ "_elements_world_" ++ PyStr.upper name
      ++ "_" ++ r ++ "_" ++ zero_padded3 h ++ ".grib2.bz2").
Proof.
  intros Hv Hr Hh Hq.
  rewrite (getURL_ok cat v name level band) by (try apply valid_hours_true; done).
  rewrite fmt_d_zero_padded3 by lia.
  rewrite Hr at 1.
  by rewrite (last_chars_app pre (String a (String b ""))
              : PyStr.last_chars 2 (pre ++ String a (String b "")) = _).
Qed.

Lemma C2_getURL_layout_witness :
  __getURL t2m_catalog "t_2m" "2024010106" 81 =
  Ok "https://opendata.dwd.de/weather/icon/global/grib/06/t_2m/ICON_iko_single-level_elements_world_T_2M_2024010106_081.grib2.bz2".
Proof.
  exact (C2_getURL_layout t2m_catalog "t_2m" "t_2m" "single-level" 1
           "2024010106" "20240101" "0" "6" 81 eq_refl eq_refl
           ltac:(lia) ltac:(reflexivity)).
Defined.

(** C3 (as amended): for a catalog variable, [__getURL] succeeds for every
    horizon from 0 to 78, and raises the invalid-forecast-hour exception
    for a horizon in (78,180] that is no multiple of 3, for a negative
    horizon and for a horizon above 180; [__getDatasetFilename] checks no
    horizon and succeeds for every integer. *)
Theorem C3_horizon_validation cat v name level band r ending h :
  cat !! v = Some (name, level, band) ->
  (0 <= h <= 78 -> succeeds (__getURL cat v r h))
  /\ (78 < h <= 180 -> h mod 3 <> 0 ->
      __getURL cat v r h = Raise invalid_forecast_hour)
  /\ (h < 0 \/ 180 < h -> __getURL cat v r h = Raise invalid_forecast_hour)
  /\ succeeds (__getDatasetFilename cat v r h ending).
Proof.
  intros Hv. repeat split.
  - intros Hh. eexists. apply (getURL_ok cat v name level band); [done|].
    apply valid_hours_true. lia.
  - intros Hh Hm. apply (getURL_invalid cat v name level band); [done|].
    apply not_true_is_false. rewrite valid_hours_true. lia.
  - intros Hh. apply (getURL_invalid cat v name level band); [done|].
    apply not_true_is_false. rewrite valid_hours_true. lia.
  - eexists. by apply (getDatasetFilename_ok cat v name level band).
Qed.

Lemma C3_horizon_validation_witness :
  (0 <= 79 <= 78 -> succeeds (__getURL t2m_catalog "t_2m" "2024010100" 79))
  /\ (78 < 79 <= 180 -> 79 mod 3 <> 0 ->
      __getURL t2m_catalog "t_2m" "2024010100" 79 = Raise invalid_forecast_hour)
  /\ (79 < 0 \/ 180 < 79 ->
      __getURL t2m_catalog "t_2m" "2024010100" 79 = Raise invalid_forecast_hour)
  /\ succeeds (__getDatasetFilename t2m_catalog "t_2m" "2024010100" 79 ".grib2.bz2").
Proof.
  exact (C3_horizon_validation t2m_catalog "t_2m" "t_2m" "single-level" 1
           "2024010100" ".grib2.bz2" 79 eq_refl).
Defined.

(** C3 as stated fails: for horizon 79, in (78,180] and no multiple of 3,
    [__getDatasetFilename] does not fail; it returns the file name. *)
Lemma C3_getDatasetFilename_accepts_79 :
  __getDatasetFilename t2m_catalog "t_2m" "2024010100" 79 ".grib2.bz2" =
  Ok "ICON_iko_single-level_elements_world_T_2M_2024010100_079.grib2.bz2"
  /\ ~ fails (__getDatasetFilename t2m_catalog "t_2m" "2024010100" 79
                ".grib2.bz2").
Proof.
  split; [reflexivity|]. intros [e He]. discriminate He.
Qed.

(** C7: for a clock reading at least three hours after the first
    representable instant, [__getDownloadTimeInfo] returns a run identifier
    whose hour component is 00, 06, 12 or 18, and a run instant that is not
    later than the reading minus three hours. *)
Theorem C7_publication_run utcnow :
  datetime.valid utcnow ->
  datetime.in_range (datetime.to_us utcnow - datetime.hours 3) ->
  exists timeIdentifier downloadTime,
    __getDownloadTimeInfo utcnow = Ok (timeIdentifier, downloadTime)
    /\ PyStr.last_chars 2 timeIdentifier ∈ run_hours
    /\ datetime.to_us downloadTime
       <= datetime.to_us utcnow - datetime.hours 3.
Proof.
  intros _ Hr.
  destruct (getDownloadTimeInfo_ok utcnow Hr)
    as (tid & dl & Hinfo & _ & Hhh & _ & _ & _ & Hle).
  by exists tid, dl.
Qed.

Lemma C7_publication_run_witness :
  exists timeIdentifier downloadTime,
    __getDownloadTimeInfo clock_2024_01_02_0711
    = Ok (timeIdentifier, downloadTime)
    /\ PyStr.last_chars 2 timeIdentifier ∈ run_hours
    /\ datetime.to_us downloadTime
       <= datetime.to_us clock_2024_01_02_0711 - datetime.hours 3.
Proof.
  apply (C7_publication_run clock_2024_01_02_0711).
  - reflexivity.
  - vm_compute. split; [discriminate | reflexivity].
Defined.

Section WallClock.

Variable ICON_VARIABLES : gmap string (string * string * Z).
Variable Archive : Type.
Variable downloadAndCompile :
  string -> Z -> gmap string string -> result Archive.

(** The facts about one call of [downloadForecastFromNow] that the
    theorems below share. *)
Lemma resolve_from_now_ok utcnow1 utcnow2 lead :
  datetime.valid utcnow2 ->
  datetime.in_range (datetime.to_us utcnow1 - datetime.hours 3) ->
  datetime.in_range
    (datetime.to_us utcnow2 - datetime.to_us utcnow2 mod datetime.US_PER_HOUR
     + datetime.hours lead) ->
  exists timeIdentifier downloadTime d,
    __getDownloadTimeInfo utcnow1 = Ok (timeIdentifier, downloadTime)
    /\ forecast_diff utcnow1 utcnow2 lead = Ok (timeIdentifier, d)
    /\ resolve_from_now utcnow1 utcnow2 lead
       = Ok (timeIdentifier, quantize_horizon d)
    /\ downloadForecastFromNow ICON_VARIABLES Archive downloadAndCompile
         utcnow1 utcnow2 lead
       = __downloadAndCompile ICON_VARIABLES Archive downloadAndCompile
           timeIdentifier (quantize_horizon d)
    /\ d * datetime.US_PER_HOUR
       = datetime.to_us utcnow2
         - datetime.to_us utcnow2 mod datetime.US_PER_HOUR
         + datetime.hours lead - datetime.to_us downloadTime
    /\ (datetime.to_us utcnow1 <= datetime.to_us utcnow2 -> 0 <= lead ->
        3 <= d).
Proof.
  intros Hv2 Hr1 Hr2.
  destruct (forecast_diff_ok utcnow1 utcnow2 lead Hv2 Hr1 Hr2)
    as (tid & dl & d & Hinfo & Hdiff & Hd & Hrun).
  exists tid, dl, d.
  assert (Hres : resolve_from_now utcnow1 utcnow2 lead
                 = Ok (tid, quantize_horizon d))
    by (unfold resolve_from_now; by rewrite Hdiff).
  repeat split; try done.
  - unfold downloadForecastFromNow. by rewrite Hres.
  - intros Hmono Hlead.
    pose proof (Z.mod_pos_bound (datetime.to_us utcnow2) datetime.US_PER_HOUR
                  ltac:(reflexivity)) as Hm.
    unfold datetime.hours, datetime.US_PER_HOUR, datetime.US_PER_SECOND in *.
    lia.
Qed.

(** C4: for clock readings that do not run backwards and a lead of at
    least 0 hours, the horizon that [downloadForecastFromNow] resolves lies
    in [0,180] and does not exceed the difference in whole hours between
    the governing run and the reading floored to the hour plus the lead:
    up to 78 it is that difference, above it the difference rounded down to
    a multiple of 3, and 180 at most.  A negative difference is not
    clamped: it reaches the URL builder, and the call raises the
    invalid-forecast-hour exception. *)
Theorem C4_horizon_from_wall_clock utcnow1 utcnow2 lead :
  datetime.valid utcnow2 ->
  datetime.in_range (datetime.to_us utcnow1 - datetime.hours 3) ->
  datetime.in_range
    (datetime.to_us utcnow2 - datetime.to_us utcnow2 mod datetime.US_PER_HOUR
     + datetime.hours lead) ->
  datetime.to_us utcnow1 <= datetime.to_us utcnow2 ->
  exists timeIdentifier downloadTime d,
    __getDownloadTimeInfo utcnow1 = Ok (timeIdentifier, downloadTime)
    /\ d * datetime.US_PER_HOUR
       = datetime.to_us utcnow2
         - datetime.to_us utcnow2 mod datetime.US_PER_HOUR
         + datetime.hours lead - datetime.to_us downloadTime
    /\ resolve_from_now utcnow1 utcnow2 lead
       = Ok (timeIdentifier, quantize_horizon d)
    /\ (0 <= lead ->
        0 <= quantize_horizon d <= 180
        /\ quantize_horizon d <= d
        /\ (d <= 78 -> quantize_horizon d = d)
        /\ (78 < d -> quantize_horizon d = Z.min 180 (3 * (d / 3))))
    /\ (d < 0 -> ICON_VARIABLES <> ∅ ->
        quantize_horizon d = d
        /\ downloadForecastFromNow ICON_VARIABLES Archive downloadAndCompile
             utcnow1 utcnow2 lead
           = Raise invalid_forecast_hour).
Proof.
  intros Hv2 Hr1 Hr2 Hmono.
  destruct (resolve_from_now_ok utcnow1 utcnow2 lead Hv2 Hr1 Hr2)
    as (tid & dl & d & Hinfo & Hdiff & Hres & Hcall & Hd & H3).
  exists tid, dl, d.
  split; [done|]. split; [done|]. split; [done|]. split.
  { intros Hlead. specialize (H3 Hmono Hlead).
    destruct (quantize_horizon_spec d) as (Hle & Hrange & Hid & Hq & _).
    split; [apply Hrange; lia|]. by split. }
  intros Hneg Hcat. split.
  - by apply quantize_horizon_neg.
  - rewrite Hcall. unfold __downloadAndCompile.
    rewrite (build_urls_invalid ICON_VARIABLES); [done | | |].
    + by apply catalog_ids_nonempty.
    + apply catalog_ids_in.
    + rewrite quantize_horizon_neg by done.
      apply not_true_is_false. rewrite valid_hours_true. lia.
Qed.

(** C9: for clock readings that do not run backwards and a lead of at
    least 0 hours, the horizon that [downloadForecastFromNow] passes on
    satisfies the checks of [__getURL]; every URL of the catalog is built,
    and the call is the call of the external download with these URLs. *)
Theorem C9_horizon_always_valid utcnow1 utcnow2 lead :
  datetime.valid utcnow2 ->
  datetime.in_range (datetime.to_us utcnow1 - datetime.hours 3) ->
  datetime.in_range
    (datetime.to_us utcnow2 - datetime.to_us utcnow2 mod datetime.US_PER_HOUR
     + datetime.hours lead) ->
  datetime.to_us utcnow1 <= datetime.to_us utcnow2 ->
  0 <= lead ->
  exists timeIdentifier hours downloadURLs,
    resolve_from_now utcnow1 utcnow2 lead = Ok (timeIdentifier, hours)
    /\ 0 <= hours <= 180 /\ (78 < hours -> hours mod 3 = 0)
    /\ (forall variableID, is_Some (ICON_VARIABLES !! variableID) ->
        succeeds (__getURL ICON_VARIABLES variableID timeIdentifier hours))
    /\ build_urls ICON_VARIABLES (map_to_list ICON_VARIABLES).*1
         timeIdentifier hours ∅ = Ok downloadURLs
    /\ downloadForecastFromNow ICON_VARIABLES Archive downloadAndCompile
         utcnow1 utcnow2 lead
       = downloadAndCompile timeIdentifier hours downloadURLs.
Proof.
  intros Hv2 Hr1 Hr2 Hmono Hlead.
  destruct (resolve_from_now_ok utcnow1 utcnow2 lead Hv2 Hr1 Hr2)
    as (tid & dl & d & Hinfo & Hdiff & Hres & Hcall & Hd & H3).
  specialize (H3 Hmono Hlead).
  assert (Hvalid : valid_hours (quantize_horizon d) = true)
    by (apply quantize_horizon_spec; lia).
  destruct (build_urls_ok ICON_VARIABLES (map_to_list ICON_VARIABLES).*1 tid
              (quantize_horizon d) ∅ (catalog_ids_in ICON_VARIABLES) Hvalid)
    as [urls Hurls].
  exists tid, (quantize_horizon d), urls.
  apply valid_hours_true in Hvalid as Hrange.
  destruct Hrange as [Hrange Hmult].
  split; [done|]. split; [done|]. split; [done|]. split; [|split; [done|]].
  - intros v [[[name level] band] Hv]. eexists.
    by apply (getURL_ok _ v name level band).
  - rewrite Hcall. unfold __downloadAndCompile. by rewrite Hurls.
Qed.

End WallClock.

Lemma C4_horizon_from_wall_clock_witness :
  (exists timeIdentifier downloadTime d,
      __getDownloadTimeInfo clock_2024_01_02 = Ok (timeIdentifier, downloadTime)
      /\ d * datetime.US_PER_HOUR
         = datetime.to_us clock_2024_01_02_0711
           - datetime.to_us clock_2024_01_02_0711 mod datetime.US_PER_HOUR
           + datetime.hours 100 - datetime.to_us downloadTime
      /\ resolve_from_now clock_2024_01_02 clock_2024_01_02_0711 100
         = Ok (timeIdentifier, quantize_horizon d)
      /\ (0 <= 100 ->
          0 <= quantize_horizon d <= 180
          /\ quantize_horizon d <= d
          /\ (d <= 78 -> quantize_horizon d = d)
          /\ (78 < d -> quantize_horizon d = Z.min 180 (3 * (d / 3))))
      /\ (d < 0 -> t2m_catalog <> ∅ ->
          quantize_horizon d = d
          /\ downloadForecastFromNow t2m_catalog unit (fun _ _ _ => Ok tt)
               clock_2024_01_02 clock_2024_01_02_0711 100
             = Raise invalid_forecast_hour))
  /\ downloadForecastFromNow t2m_catalog unit (fun _ _ _ => Ok tt)
       clock_2024_01_02 clock_2024_01_02_0711 (-20)
     = Raise invalid_forecast_hour.
Proof.
  split.
  - apply (C4_horizon_from_wall_clock t2m_catalog unit (fun _ _ _ => Ok tt)
             clock_2024_01_02 clock_2024_01_02_0711 100).
    + reflexivity.
    + vm_compute. split; [discriminate | reflexivity].
    + vm_compute. split; [discriminate | reflexivity].
    + vm_compute. discriminate.
  - destruct (C4_horizon_from_wall_clock t2m_catalog unit
                (fun _ _ _ => Ok tt)
                clock_2024_01_02 clock_2024_01_02_0711 (-20))
      as (tid & dl & d & Hinfo & Hd & _ & _ & Hneg).
    + reflexivity.
    + vm_compute. split; [discriminate | reflexivity].
    + vm_compute. split; [discriminate | reflexivity].
    + vm_compute. discriminate.
    + vm_compute in Hinfo. injection Hinfo as <- <-.
      match type of Hd with
      | _ = ?r => let v := eval vm_compute in r in change r with v in Hd
      end.
      unfold datetime.US_PER_HOUR, datetime.US_PER_SECOND in Hd.
      apply Hneg; [lia|].
      intros Hempty. apply (f_equal (lookup "t_2m")) in Hempty.
      discriminate Hempty.
Defined.

Lemma C9_horizon_always_valid_witness :
  exists timeIdentifier hours downloadURLs,
    resolve_from_now clock_2024_01_02 clock_2024_01_02_0711 100
    = Ok (timeIdentifier, hours)
    /\ 0 <= hours <= 180 /\ (78 < hours -> hours mod 3 = 0)
    /\ (forall variableID, is_Some (t2m_catalog !! variableID) ->
        succeeds (__getURL t2m_catalog variableID timeIdentifier hours))
    /\ build_urls t2m_catalog (map_to_list t2m_catalog).*1
         timeIdentifier hours ∅ = Ok downloadURLs
    /\ downloadForecastFromNow t2m_catalog unit (fun _ _ _ => Ok tt)
         clock_2024_01_02 clock_2024_01_02_0711 100
       = Ok tt.
Proof.
  apply (C9_horizon_always_valid t2m_catalog unit (fun _ _ _ => Ok tt)
           clock_2024_01_02 clock_2024_01_02_0711 100).
  - reflexivity.
  - vm_compute. split; [discriminate | reflexivity].
  - vm_compute. split; [discriminate | reflexivity].
  - vm_compute. discriminate.
  - lia.
Defined.

(** A regular file of a class whose name holds a run time is deleted
    exactly when the run time is strictly before the cut-off of the class;
    what remains of the directory is what was not deleted. *)
Lemma cleanUp_by_run_time utcnow archiveLife tempDir listing :
  datetime.in_range (datetime.to_us utcnow - datetime.hours archiveLife) ->
  datetime.in_range (datetime.to_us utcnow - datetime.hours 1) ->
  listdir_ok listing ->
  exists delList remaining,
    cleanUp utcnow archiveLife tempDir listing = Ok (delList, remaining)
    /\ (forall name g runTime,
        In (os.mk_dirent name true) listing ->
        timeIdentifierToDatetime g = Ok runTime ->
        (existsb (PyStr.endswith name) grib_suffixes = true ->
         Re.search Re.run_horizon_at name = Some g ->
         (In (os.join tempDir name) delList <->
          datetime.to_us runTime
          < datetime.to_us utcnow - datetime.hours archiveLife))
        /\ (existsb (PyStr.endswith name) icondb_suffixes = true ->
            Re.search Re.forecast_at name = Some g ->
            (In (os.join tempDir name) delList <->
             datetime.to_us runTime
             < datetime.to_us utcnow - datetime.hours 1)))
    /\ (forall e, In e remaining <->
        In e listing /\ ~ In (os.join tempDir (os.d_name e)) delList).
Proof.
  intros H1 H2 Hok.
  destruct (cleanUp_spec utcnow archiveLife tempDir listing H1 H2 Hok)
    as (b1 & b2 & delList & remaining & Hb1 & Hb2 & Hc & Hin & _ & Hrem).
  exists delList, remaining. split; [exact Hc|]. split; [|exact Hrem].
  intros name g runTime He Hparse.
  pose proof (listdir_ok_name listing _ Hok He) as Hn. simpl in Hn.
  specialize (Hin _ He). simpl in Hin. rewrite Hin.
  rewrite !stale_name by done.
  split; intros Hs Hg; rewrite <- ?Hb1, <- ?Hb2, <- isOlderThan_spec.
  - split.
    + intros [_ [[_ Hst] | [Hs' _]]].
      * by rewrite Hg, Hparse in Hst.
      * destruct (suffix_classes_disjoint name Hs Hs').
    + intros Hst. split; [done|]. left. by rewrite Hg, Hparse.
  - split.
    + intros [_ [[Hs' _] | [_ Hst]]].
      * destruct (suffix_classes_disjoint name Hs' Hs).
      * by rewrite Hg, Hparse in Hst.
    + intros Hst. split; [done|]. right. by rewrite Hg, Hparse.
Qed.

(** C5: [cleanUp] takes the cut-off [now - archiveLife] hours for the raw
    files and [now - 1] hour for the compiled archives; a regular file of
    a class whose name holds a run time is deleted exactly when this run
    time is strictly before the cut-off of its class.  With a retention of
    24 hours at 2024-01-02 00:00, 2023123100_006.grib2 is deleted, and
    forecast-2024010123.icondb, whose run time is the cut-off itself, is
    kept. *)
Theorem C5_cleanUp_cutoffs tempDir listing :
  listdir_ok listing ->
  (forall utcnow archiveLife,
      datetime.in_range (datetime.to_us utcnow - datetime.hours archiveLife) ->
      datetime.in_range (datetime.to_us utcnow - datetime.hours 1) ->
      exists delList remaining,
        cleanUp utcnow archiveLife tempDir listing = Ok (delList, remaining)
        /\ (forall name g runTime,
            In (os.mk_dirent name true) listing ->
            timeIdentifierToDatetime g = Ok runTime ->
            (existsb (PyStr.endswith name) grib_suffixes = true ->
             Re.search Re.run_horizon_at name = Some g ->
             (In (os.join tempDir name) delList <->
              datetime.to_us runTime
              < datetime.to_us utcnow - datetime.hours archiveLife))
            /\ (existsb (PyStr.endswith name) icondb_suffixes = true ->
                Re.search Re.forecast_at name = Some g ->
                (In (os.join tempDir name) delList <->
                 datetime.to_us runTime
                 < datetime.to_us utcnow - datetime.hours 1)))
        /\ (forall e, In e remaining <->
            In e listing /\ ~ In (os.join tempDir (os.d_name e)) delList))
  /\ (exists delList remaining,
        cleanUp clock_2024_01_02 24 tempDir listing = Ok (delList, remaining)
        /\ (In (os.mk_dirent "2023123100_006.grib2" true) listing ->
            In (os.join tempDir "2023123100_006.grib2") delList)
        /\ (In (os.mk_dirent "forecast-2024010123.icondb" true) listing ->
            ~ In (os.join tempDir "forecast-2024010123.icondb") delList
            /\ In (os.mk_dirent "forecast-2024010123.icondb" true) remaining)).
Proof.
  intros Hok. split.
  { intros utcnow archiveLife H1 H2. by apply cleanUp_by_run_time. }
  destruct (cleanUp_by_run_time clock_2024_01_02 24 tempDir listing)
    as (delList & remaining & Hc & Hin & Hrem); [| |done|].
  { vm_compute. split; [discriminate | reflexivity]. }
  { vm_compute. split; [discriminate | reflexivity]. }
  exists delList, remaining. split; [exact Hc|]. split.
  - intros He.
    destruct (Hin "2023123100_006.grib2" "2023123100"
                (datetime.mk_datetime 2023 12 31 0 0 0 0) He eq_refl)
      as [Hraw _].
    apply Hraw; vm_compute; reflexivity.
  - intros He.
    assert (Hnot : ~ In (os.join tempDir "forecast-2024010123.icondb") delList).
    { intros Hd.
      destruct (Hin "forecast-2024010123.icondb" "2024010123"
                  (datetime.mk_datetime 2024 1 1 23 0 0 0) He eq_refl)
        as [_ Hicon].
      apply Hicon in Hd; [|vm_compute; reflexivity..].
      vm_compute in Hd. discriminate Hd. }
    split; [exact Hnot|]. apply Hrem. by split.
Qed.

Lemma C5_cleanUp_cutoffs_witness :
  exists delList remaining,
    cleanUp clock_2024_01_02 24 "/var/icon" sample_listing
    = Ok (delList, remaining)
    /\ In "/var/icon/2023123100_006.grib2" delList
    /\ ~ In "/var/icon/forecast-2024010123.icondb" delList
    /\ In (os.mk_dirent "forecast-2024010123.icondb" true) remaining
    /\ In "/var/icon/forecast-2024010122.icondb" delList.
Proof.
  destruct (C5_cleanUp_cutoffs "/var/icon" sample_listing sample_listing_ok)
    as [Hgen (delList & remaining & Hc & Hraw & Hicon)].
  exists delList, remaining. split; [exact Hc|].
  split; [apply Hraw; simpl; tauto|].
  destruct Hicon as [Hkept Hrem]; [simpl; tauto|].
  split; [exact Hkept|]. split; [exact Hrem|].
  destruct (Hgen clock_2024_01_02 24) as (delList' & remaining' & Hc' & Hin & _).
  { vm_compute. split; [discriminate | reflexivity]. }
  { vm_compute. split; [discriminate | reflexivity]. }
  rewrite Hc in Hc'. injection Hc' as <- <-.
  destruct (Hin "forecast-2024010122.icondb" "2024010122"
              (datetime.mk_datetime 2024 1 1 22 0 0 0)) as [_ Hold];
    [simpl; tauto | reflexivity |].
  apply Hold; vm_compute; reflexivity.
Defined.

(** C8: on a directory that holds exactly the regular files
    forecast-2024010100.icondb and notes.txt, in either order,
    [listDatabase] returns the one entry 2024010100 with the path of the
    archive; and a file without the archive extension, without a
    forecast-<10 digits> part, or with an identifier that is no datetime,
    adds no entry: the result is that of the directory without it. *)
Theorem C8_listDatabase_entries tempDir :
  let archive := os.mk_dirent "forecast-2024010100.icondb" true in
  let notes := os.mk_dirent "notes.txt" true in
  let entry :=
    mk_archive_info (os.join tempDir "forecast-2024010100.icondb")
      (datetime.mk_datetime 2024 1 1 0 0 0 0) in
  listDatabase tempDir [archive; notes] = {[ "2024010100" := entry ]}
  /\ listDatabase tempDir [notes; archive] = {[ "2024010100" := entry ]}
  /\ (forall l1 e l2,
        os.has_sep (os.d_name e) = false ->
        PyStr.endswith (os.d_name e) ".icondb" = false
        \/ Re.search Re.forecast_at (os.d_name e) = None
        \/ (exists g err, Re.search Re.forecast_at (os.d_name e) = Some g
                          /\ timeIdentifierToDatetime g = Raise err) ->
        listDatabase tempDir (l1 ++ e :: l2) = listDatabase tempDir (l1 ++ l2)).
Proof.
  cbv zeta. split; [|split].
  - unfold listDatabase. simpl.
    rewrite (listDatabase_step_add tempDir ∅ _ "2024010100"
               (datetime.mk_datetime 2024 1 1 0 0 0 0)) by reflexivity.
    rewrite listDatabase_step_skip; [done | done | by left].
  - unfold listDatabase. simpl.
    rewrite (listDatabase_step_skip tempDir ∅); [| done | by left].
    by rewrite (listDatabase_step_add tempDir ∅ _ "2024010100"
                  (datetime.mk_datetime 2024 1 1 0 0 0 0)) by reflexivity.
  - intros l1 e l2 Hn H. apply listDatabase_skip; [done|]. tauto.
Qed.

Lemma C8_listDatabase_entries_witness :
  listDatabase "/var/icon"
    [os.mk_dirent "forecast-2024010100.icondb" true;
     os.mk_dirent "forecast-2024019900.icondb" true;
     os.mk_dirent "notes.txt" true]
  = {[ "2024010100" :=
         mk_archive_info "/var/icon/forecast-2024010100.icondb"
           (datetime.mk_datetime 2024 1 1 0 0 0 0) ]}.
Proof.
  destruct (C8_listDatabase_entries "/var/icon") as (Hone & _ & Hskip).
  refine (eq_trans
            (Hskip [os.mk_dirent "forecast-2024010100.icondb" true]
               (os.mk_dirent "forecast-2024019900.icondb" true)
               [os.mk_dirent "notes.txt" true] _ _) Hone).
  - reflexivity.
  - right. right. exists "2024019900", ValueError. split; reflexivity.
Defined.

(** C6: [listDatabase] passes over forecast-abcdefghij.icondb, which adds
    no entry, and [cleanUp] deletes it; in general [cleanUp] deletes every
    regular file with an extension of one of its two classes whose name
    holds no run identifier, or one that is no datetime. *)
Theorem C6_unparsable_names tempDir listing :
  listdir_ok listing ->
  (forall l1 l2,
      listDatabase tempDir
        (l1 ++ os.mk_dirent "forecast-abcdefghij.icondb" true :: l2)
      = listDatabase tempDir (l1 ++ l2))
  /\ (forall utcnow archiveLife,
      datetime.in_range (datetime.to_us utcnow - datetime.hours archiveLife) ->
      datetime.in_range (datetime.to_us utcnow - datetime.hours 1) ->
      exists delList remaining,
        cleanUp utcnow archiveLife tempDir listing = Ok (delList, remaining)
        /\ (In (os.mk_dirent "forecast-abcdefghij.icondb" true) listing ->
            In (os.join tempDir "forecast-abcdefghij.icondb") delList
            /\ ~ In (os.mk_dirent "forecast-abcdefghij.icondb" true) remaining)
        /\ (forall name,
            In (os.mk_dirent name true) listing ->
            (existsb (PyStr.endswith name) grib_suffixes = true
             /\ (Re.search Re.run_horizon_at name = None
                 \/ exists g err, Re.search Re.run_horizon_at name = Some g
                                  /\ timeIdentifierToDatetime g = Raise err))
            \/ (existsb (PyStr.endswith name) icondb_suffixes = true
                /\ (Re.search Re.forecast_at name = None
                    \/ exists g err, Re.search Re.forecast_at name = Some g
                                     /\ timeIdentifierToDatetime g = Raise err)) ->
            In (os.join tempDir name) delList
            /\ ~ In (os.mk_dirent name true) remaining)).
Proof.
  intros Hok. split.
  - intros l1 l2. apply listDatabase_skip; [done|]. right. right. by left.
  - intros utcnow archiveLife H1 H2.
    destruct (cleanUp_no_run_time utcnow archiveLife tempDir listing H1 H2 Hok)
      as (delList & remaining & Hc & Hdel).
    exists delList, remaining. split; [exact Hc|]. split; [|exact Hdel].
    intros He. apply (Hdel _ He). right. split; [done|]. by left.
Qed.

Lemma C6_unparsable_names_witness :
  listDatabase "/var/icon" sample_listing
  = listDatabase "/var/icon"
      [os.mk_dirent "2023123100_006.grib2" true;
       os.mk_dirent "forecast-2024010123.icondb" true;
       os.mk_dirent "forecast-2024010122.icondb" true;
       os.mk_dirent "forecast-2024010100.icondb.temp" true;
       os.mk_dirent "forecast-2024019900.icondb.checksum" true;
       os.mk_dirent "notes.txt" true]
  /\ exists delList remaining,
       cleanUp clock_2024_01_02 24 "/var/icon" sample_listing
       = Ok (delList, remaining)
       /\ In "/var/icon/forecast-abcdefghij.icondb" delList
       /\ ~ In (os.mk_dirent "forecast-abcdefghij.icondb" true) remaining.
Proof.
  destruct (C6_unparsable_names "/var/icon" sample_listing sample_listing_ok)
    as [Hlist Hclean].
  split.
  - exact (Hlist [os.mk_dirent "2023123100_006.grib2" true;
                  os.mk_dirent "forecast-2024010123.icondb" true;
                  os.mk_dirent "forecast-2024010122.icondb" true]
                 [os.mk_dirent "forecast-2024010100.icondb.temp" true;
                  os.mk_dirent "forecast-2024019900.icondb.checksum" true;
                  os.mk_dirent "notes.txt" true]).
  - destruct (Hclean clock_2024_01_02 24)
      as (delList & remaining & Hc & Hdel & _).
    + vm_compute. split; [discriminate | reflexivity].
    + vm_compute. split; [discriminate | reflexivity].
    + exists delList, remaining. split; [exact Hc|].
      apply Hdel. simpl. tauto.
Defined.

(** C10: [cleanUp] treats the files ending in .icondb.temp and
    .icondb.checksum like the archives: such a regular file is deleted
    exactly when its name holds no forecast-<10 digits> part, or holds one
    that is no datetime, or one whose run time is strictly more than one
    hour before the clock reading. *)
Theorem C10_archive_companions utcnow archiveLife tempDir listing name :
  datetime.in_range (datetime.to_us utcnow - datetime.hours archiveLife) ->
  datetime.in_range (datetime.to_us utcnow - datetime.hours 1) ->
  listdir_ok listing ->
  In (os.mk_dirent name true) listing ->
  PyStr.endswith name ".icondb" = true
  \/ PyStr.endswith name ".icondb.temp" = true
  \/ PyStr.endswith name ".icondb.checksum" = true ->
  exists delList remaining,
    cleanUp utcnow archiveLife tempDir listing = Ok (delList, remaining)
    /\ (In (os.join tempDir name) delList <->
        Re.search Re.forecast_at name = None
        \/ exists g, Re.search Re.forecast_at name = Some g
             /\ ((exists err, timeIdentifierToDatetime g = Raise err)
                 \/ exists runTime,
                      timeIdentifierToDatetime g = Ok runTime
                      /\ datetime.to_us runTime
                         < datetime.to_us utcnow - datetime.hours 1)).
Proof.
  intros H1 H2 Hok He Hsuf.
  destruct (cleanUp_spec utcnow archiveLife tempDir listing H1 H2 Hok)
    as (b1 & b2 & delList & remaining & _ & Hb2 & Hc & Hin & _ & _).
  exists delList, remaining. split; [exact Hc|].
  pose proof (listdir_ok_name listing _ Hok He) as Hn. simpl in Hn.
  assert (Hs : existsb (PyStr.endswith name) icondb_suffixes = true).
  { simpl. destruct Hsuf as [-> | [-> | ->]]; by rewrite ?orb_true_r. }
  rewrite (Hin _ He). simpl. rewrite !stale_name by done. split.
  - intros [_ [[Hs' _] | [_ Hst]]];
      [destruct (suffix_classes_disjoint name Hs' Hs)|].
    destruct (Re.search Re.forecast_at name) as [g|]; [|by left].
    right. exists g. split; [done|].
    destruct (timeIdentifierToDatetime g) as [rt | err]; [right | left].
    + exists rt. split; [done|]. by rewrite <- Hb2, <- isOlderThan_spec.
    + by exists err.
  - intros H. split; [done|]. right. split; [done|].
    destruct H as [-> | (g & -> & [[err ->] | (rt & -> & Hrt)])]; try done.
    by rewrite isOlderThan_spec, Hb2.
Qed.

Lemma C10_archive_companions_witness :
  exists delList remaining,
    cleanUp clock_2024_01_02 24 "/var/icon" sample_listing
    = Ok (delList, remaining)
    /\ In "/var/icon/forecast-2024010100.icondb.temp" delList
    /\ In "/var/icon/forecast-2024019900.icondb.checksum" delList.
Proof.
  destruct (C10_archive_companions clock_2024_01_02 24 "/var/icon"
              sample_listing "forecast-2024010100.icondb.temp")
    as (delList & remaining & Hc & Htemp).
  { vm_compute. split; [discriminate | reflexivity]. }
  { vm_compute. split; [discriminate | reflexivity]. }
  { exact sample_listing_ok. }
  { simpl. tauto. }
  { right. left. reflexivity. }
  destruct (C10_archive_companions clock_2024_01_02 24 "/var/icon"
              sample_listing "forecast-2024019900.icondb.checksum")
    as (delList' & remaining' & Hc' & Hsum).
  { vm_compute. split; [discriminate | reflexivity]. }
  { vm_compute. split; [discriminate | reflexivity]. }
  { exact sample_listing_ok. }
  { simpl. tauto. }
  { right. right. reflexivity. }
  rewrite Hc in Hc'. injection Hc' as <- <-.
  exists delList, remaining. split; [exact Hc|]. split.
  - apply Htemp. right. exists "2024010100". split; [reflexivity|].
    right. exists (datetime.mk_datetime 2024 1 1 0 0 0 0).
    split; [reflexivity | vm_compute; reflexivity].
  - apply Hsum. right. exists "2024019900". split; [reflexivity|].
    left. exists ValueError. reflexivity.
Defined.

(** * Further properties *)

(** ** The governing run *)

(** What [__getDownloadTimeInfo] computes, step by step. *)
Lemma getDownloadTimeInfo_steps utcnow :
  datetime.in_range (datetime.to_us utcnow - datetime.hours 3) ->
  exists lastTime,
    datetime.valid lastTime
    /\ datetime.to_us lastTime = datetime.to_us utcnow - datetime.hours 3
    /\ __getDownloadTimeInfo utcnow
       = let downloadHour := datetime.hour lastTime / 6 * 6 in
         Ok (PyStr.fmt_d false 4 (datetime.year lastTime)
             ++ PyStr.fmt_d true 2 (datetime.month lastTime)
             ++ PyStr.fmt_d true 2 (datetime.day lastTime)
             ++ PyStr.fmt_d true 2 downloadHour,
             datetime.mk_datetime (datetime.year lastTime)
               (datetime.month lastTime) (datetime.day lastTime)
               downloadHour 0 0 0).
Proof.
  intros Hr.
  destruct (sub_ok utcnow (datetime.hours 3) Hr) as (lastTime & Hsub & Hv & Hus).
  exists lastTime. split; [exact Hv|]. split; [exact Hus|].
  apply valid_fields in Hv as Hf.
  unfold __getDownloadTimeInfo, DATASET_DELAY. rewrite Hsub, bind_Ok.
  rewrite new_ok; [reflexivity | lia | lia | lia |].
  Z.div_mod_to_equations. lia.
Qed.


Lemma fmt_d_year y :
  1000 <= y <= 9999 ->
  exists a b c d,
    PyStr.fmt_d false 4 y = String a (String b (String c (String d "")))
    /\ PyStr.all_digits (PyStr.fmt_d false 4 y) = true
    /\ PyStr.int_of_digits 0 (PyStr.fmt_d false 4 y) = y.
Proof.
  intros Hy.
  assert (Hall : forallb
            (fun n =>
               let s := PyStr.fmt_d false 4 (Z.of_nat n) in
               match s with
               | String _ (String _ (String _ (String _ EmptyString))) =>
                   PyStr.all_digits s
                   && (PyStr.int_of_digits 0 s =? Z.of_nat n)
               | _ => false
               end)
            (seq (Z.to_nat 1000) (Z.to_nat 9000)) = true)
    by (vm_compute; reflexivity).
  rewrite forallb_forall in Hall.
  assert (Hin : In (Z.to_nat y) (seq (Z.to_nat 1000) (Z.to_nat 9000)))
    by (apply in_seq; lia).
  specialize (Hall _ Hin).
  rewrite Z2Nat.id in Hall by lia. cbv zeta in Hall.
  destruct (PyStr.fmt_d false 4 y) as [|a [|b [|c [|d [|? ?]]]]];
    try discriminate Hall.
  apply andb_true_iff in Hall as [H1 H2].
  apply Z.eqb_eq in H2. by exists a, b, c, d.
Qed.

Lemma fmt_d_two n :
  0 <= n <= 99 ->
  exists a b,
    PyStr.fmt_d true 2 n = String a (String b "")
    /\ PyStr.all_digits (PyStr.fmt_d true 2 n) = true
    /\ PyStr.int_of_digits 0 (PyStr.fmt_d true 2 n) = n.
Proof.
  intros Hn.
  assert (Hall : forallb
            (fun k =>
               let s := PyStr.fmt_d true 2 (Z.of_nat k) in
               match s with
               | String _ (String _ EmptyString) =>
                   PyStr.all_digits s
                   && (PyStr.int_of_digits 0 s =? Z.of_nat k)
               | _ => false
               end)
            (seq 0 100) = true) by (vm_compute; reflexivity).
  rewrite forallb_forall in Hall.
  assert (Hin : In (Z.to_nat n) (seq 0 100)) by (apply in_seq; lia).
  specialize (Hall _ Hin).
  rewrite Z2Nat.id in Hall by lia. cbv zeta in Hall.
  destruct (PyStr.fmt_d true 2 n) as [|a [|b [|? ?]]];
    try discriminate Hall.
  apply andb_true_iff in Hall as [H1 H2].
  apply Z.eqb_eq in H2. by exists a, b.
Qed.

(** X2: for a run in a year of four digits, the run identifier is ten
    decimal digits, year, month, day and hour of the run instant, and
    [timeIdentifierToDatetime] reads the run instant back from it. *)
Theorem getDownloadTimeInfo_identifier utcnow :
  datetime.in_range (datetime.to_us utcnow - datetime.hours 3) ->
  exists timeIdentifier downloadTime,
    __getDownloadTimeInfo utcnow = Ok (timeIdentifier, downloadTime)
    /\ (1000 <= datetime.year downloadTime ->
        String.length timeIdentifier = 10%nat
        /\ PyStr.all_digits timeIdentifier = true
        /\ PyStr.int_of_digits 0 (String.substring 0 4 timeIdentifier)
           = datetime.year downloadTime
        /\ PyStr.int_of_digits 0 (String.substring 4 2 timeIdentifier)
           = datetime.month downloadTime
        /\ PyStr.int_of_digits 0 (String.substring 6 2 timeIdentifier)
           = datetime.day downloadTime
        /\ PyStr.int_of_digits 0 (String.substring 8 2 timeIdentifier)
           = datetime.hour downloadTime
        /\ timeIdentifierToDatetime timeIdentifier = Ok downloadTime).
Proof.
  intros Hr.
  destruct (getDownloadTimeInfo_steps utcnow Hr) as (lastTime & Hv & Hus & Hinfo).
  rewrite Hinfo. cbv zeta. do 2 eexists. split; [reflexivity|].
  apply valid_fields in Hv as Hf.
  set (downloadHour := datetime.hour lastTime / 6 * 6).
  assert (HdH : 0 <= downloadHour <= 23)
    by (subst downloadHour; Z.div_mod_to_equations; lia).
  clearbody downloadHour. simpl. intros Hy.
  unfold datetime.MAXYEAR in Hf.
  destruct (fmt_d_year (datetime.year lastTime) ltac:(lia))
    as (y1 & y2 & y3 & y4 & Ey & Dy & Iy).
  destruct (fmt_d_two (datetime.month lastTime) ltac:(lia))
    as (m1 & m2 & Em & Dm & Im).
  assert (Hday : datetime.day lastTime <= 99).
  { destruct Hf as (_ & Hm & Hd & _). unfold datetime.days_in_month in Hd.
    destruct (_ && _); [lia|].
    assert (datetime.DAYS_IN_MONTH (datetime.month lastTime) <= 31); [|lia].
    assert (Hc : datetime.month lastTime = 1 \/ datetime.month lastTime = 2
                 \/ datetime.month lastTime = 3 \/ datetime.month lastTime = 4
                 \/ datetime.month lastTime = 5 \/ datetime.month lastTime = 6
                 \/ datetime.month lastTime = 7 \/ datetime.month lastTime = 8
                 \/ datetime.month lastTime = 9 \/ datetime.month lastTime = 10
                 \/ datetime.month lastTime = 11 \/ datetime.month lastTime = 12)
      by lia.
    repeat (destruct Hc as [-> | Hc]); try rewrite Hc; simpl; lia. }
  destruct (fmt_d_two (datetime.day lastTime) ltac:(lia))
    as (d1 & d2 & Ed & Dd & Id).
  destruct (fmt_d_two downloadHour ltac:(lia)) as (h1 & h2 & Eh & Dh & Ih).
  rewrite Ey, Em, Ed, Eh in *.
  repeat rewrite ?append_cons, ?append_nil.
  cbn [PyStr.all_digits] in Dy, Dm, Dd, Dh.
  repeat match goal with
         | H : _ && _ = true |- _ => apply andb_true_iff in H as [? ?]
         end.
  unfold timeIdentifierToDatetime.
  cbn [String.length Nat.eqb PyStr.all_digits String.substring].
  repeat match goal with
         | H : PyStr.is_digit _ = true |- _ => rewrite H; clear H
         end.
  cbn [andb]. rewrite Iy, Im, Id, Ih.
  rewrite new_ok by (unfold datetime.MINYEAR, datetime.MAXYEAR; lia). done.
Qed.

(** ** The horizon *)

(** X3: bringing a difference down to a horizon is idempotent and
    monotone, loses at most two hours up to 182, and gives a horizon that
    [__getURL] accepts for every difference that is not negative. *)
Theorem quantize_horizon_properties d d' :
  quantize_horizon (quantize_horizon d) = quantize_horizon d
  /\ (d <= d' -> quantize_horizon d <= quantize_horizon d')
  /\ (d <= 182 -> d - 2 <= quantize_horizon d)
  /\ (0 <= d -> valid_hours (quantize_horizon d) = true)
  /\ (d < 0 -> valid_hours (quantize_horizon d) = false).
Proof.
  assert (Hq : forall x, 78 < x ->
             x - 2 <= x / 3 * 3 <= x /\ (x / 3 * 3) mod 3 = 0)
    by (intros x Hx; split; [Z.div_mod_to_equations; lia
                            | apply Z.mod_mul; lia]).
  assert (Hm : forall x y, x <= y -> x / 3 * 3 <= y / 3 * 3)
    by (intros x y Hxy; Z.div_mod_to_equations; lia).
  split; [|split; [|split; [|split]]].
  - unfold quantize_horizon.
    destruct (Z.ltb_spec 78 d) as [H78 | H78].
    + destruct (Hq d H78) as [Hb Hmod].
      destruct (Z.ltb_spec 180 (d / 3 * 3)) as [H180 | H180]; [reflexivity|].
      destruct (Z.ltb_spec 78 (d / 3 * 3)) as [H78' | H78'].
      * apply Z.div_exact in Hmod; [|lia].
        replace (d / 3 * 3 / 3 * 3) with (d / 3 * 3) by lia.
        destruct (Z.ltb_spec 180 (d / 3 * 3)); [lia | reflexivity].
      * destruct (Z.ltb_spec 180 (d / 3 * 3)); [lia | reflexivity].
    + destruct (Z.ltb_spec 180 d) as [H180 | H180]; [lia|].
      destruct (Z.ltb_spec 78 d); [lia|].
      destruct (Z.ltb_spec 180 d); [lia | reflexivity].
  - intros Hle. unfold quantize_horizon.
    pose proof (Hm d d' Hle).
    destruct (Z.ltb_spec 78 d) as [H78 | H78];
      destruct (Z.ltb_spec 78 d') as [H78' | H78']; try lia.
    + pose proof (Hq d H78). pose proof (Hq d' H78').
      destruct (Z.ltb_spec 180 (d / 3 * 3));
        destruct (Z.ltb_spec 180 (d' / 3 * 3)); lia.
    + pose proof (Hq d' H78').
      destruct (Z.ltb_spec 180 d); destruct (Z.ltb_spec 180 (d' / 3 * 3)); lia.
    + destruct (Z.ltb_spec 180 d); destruct (Z.ltb_spec 180 d'); lia.
  - intros Hd. unfold quantize_horizon.
    destruct (Z.ltb_spec 78 d) as [H78 | H78].
    + pose proof (Hq d H78). destruct (Z.ltb_spec 180 (d / 3 * 3)); lia.
    + destruct (Z.ltb_spec 180 d); lia.
  - intros Hd. by apply quantize_horizon_spec.
  - intros Hd. rewrite quantize_horizon_neg by done.
    apply not_true_is_false. rewrite valid_hours_true. lia.
Qed.

Lemma quantize_horizon_properties_witness :
  quantize_horizon (quantize_horizon 100) = quantize_horizon 100
  /\ quantize_horizon 100 <= quantize_horizon 200
  /\ 100 - 2 <= quantize_horizon 100
  /\ valid_hours (quantize_horizon 100) = true.
Proof.
  destruct (quantize_horizon_properties 100 200) as (H1 & H2 & H3 & H4 & _).
  split; [exact H1|]. split; [apply H2; lia|].
  split; [apply H3; lia | apply H4; lia].
Defined.

(** X4: the horizon of [downloadForecastFromNow] is the lead plus the age
    of the governing run in whole hours at the reading floored to the
    hour, quantized; this age does not depend on the lead, is at least 3
    when the clock does not run backwards, and at most 8 when both
    readings are the same instant. *)
Theorem resolve_from_now_linear utcnow1 utcnow2 :
  datetime.valid utcnow2 ->
  datetime.in_range (datetime.to_us utcnow1 - datetime.hours 3) ->
  exists timeIdentifier downloadTime age,
    __getDownloadTimeInfo utcnow1 = Ok (timeIdentifier, downloadTime)
    /\ age * datetime.US_PER_HOUR
       = datetime.to_us utcnow2
         - datetime.to_us utcnow2 mod datetime.US_PER_HOUR
         - datetime.to_us downloadTime
    /\ (forall lead,
        datetime.in_range
          (datetime.to_us utcnow2
           - datetime.to_us utcnow2 mod datetime.US_PER_HOUR
           + datetime.hours lead) ->
        resolve_from_now utcnow1 utcnow2 lead
        = Ok (timeIdentifier, quantize_horizon (age + lead)))
    /\ (datetime.to_us utcnow1 <= datetime.to_us utcnow2 -> 3 <= age)
    /\ (datetime.to_us utcnow2 <= datetime.to_us utcnow1 -> age <= 8).
Proof.
  intros Hv2 Hr1.
  destruct (getDownloadTimeInfo_ok utcnow1 Hr1)
    as (tid & dl & Hinfo & Hvdl & _ & _ & Hmod & Hrun).
  pose proof (Z.mod_pos_bound (datetime.to_us utcnow2) datetime.US_PER_HOUR
                ltac:(reflexivity)) as Hm.
  pose proof (Z.div_mod (datetime.to_us utcnow2) datetime.US_PER_HOUR
                ltac:(discriminate)) as Hdm.
  apply Z.mod_divide in Hmod as [q Hq]; [|discriminate].
  exists tid, dl, (datetime.to_us utcnow2 / datetime.US_PER_HOUR - q).
  split; [exact Hinfo|]. split; [lia|]. split; [|split].
  - intros lead Hr2.
    destruct (forecast_diff_ok utcnow1 utcnow2 lead Hv2 Hr1 Hr2)
      as (tid' & dl' & d & Hinfo' & Hdiff & Hd & _).
    rewrite Hinfo in Hinfo'. injection Hinfo' as <- <-.
    unfold resolve_from_now. rewrite Hdiff, bind_Ok.
    replace d with (datetime.to_us utcnow2 / datetime.US_PER_HOUR - q + lead);
      [reflexivity|].
    apply (Z.mul_cancel_r _ _ datetime.US_PER_HOUR); [discriminate|].
    unfold datetime.hours in Hd. lia.
  - intros Hmono.
    unfold datetime.US_PER_HOUR, datetime.US_PER_SECOND in *. lia.
  - intros Hmono.
    unfold datetime.US_PER_HOUR, datetime.US_PER_SECOND in *. lia.
Qed.

Lemma resolve_from_now_linear_witness :
  exists timeIdentifier downloadTime age,
    __getDownloadTimeInfo clock_2024_01_02_0711
    = Ok (timeIdentifier, downloadTime)
    /\ resolve_from_now clock_2024_01_02_0711 clock_2024_01_02_0711 6
       = Ok (timeIdentifier, quantize_horizon (age + 6))
    /\ 3 <= age <= 8.
Proof.
  destruct (resolve_from_now_linear clock_2024_01_02_0711
              clock_2024_01_02_0711)
    as (tid & dl & age & Hinfo & _ & Hres & Hlo & Hhi).
  - reflexivity.
  - vm_compute. split; [discriminate | reflexivity].
  - exists tid, dl, age. split; [exact Hinfo|]. split.
    + apply Hres. vm_compute. split; [discriminate | reflexivity].
    + split; [apply Hlo | apply Hhi]; lia.
Defined.

(** ** The locator *)



Lemma getURL_Ok_inv cat v r h u :
  __getURL cat v r h = Ok u ->
  exists name level band,
    cat !! v = Some (name, level, band) /\ valid_hours h = true.
Proof.
  unfold __getURL. destruct (cat !! v) as [[[name level] band]|]; [|done].
  destruct (valid_hours h); [|done]. intros _. by exists name, level, band.
Qed.

Lemma append_inj_length (a b c d : string) :
  a ++ c = b ++ d -> String.length c = String.length d -> a = b /\ c = d.
Proof.
  intros H Hl.
  destruct (append_eq_split _ _ _ _ H) as [[w [-> ->]] | [w [-> ->]]];
    rewrite length_append in Hl; destruct w; simpl in Hl; try lia;
    by rewrite append_empty_r.
Qed.

Lemma append_inj_length_l (a b c d : string) :
  a ++ c = b ++ d -> String.length a = String.length b -> a = b /\ c = d.
Proof.
  intros H Hl. apply append_inj_length; [done|].
  apply (f_equal String.length) in H. rewrite !length_append in H. lia.
Qed.

Lemma digit_char_inj x y :
  0 <= x <= 9 -> 0 <= y <= 9 -> PyStr.digit_char x = PyStr.digit_char y -> x = y.
Proof.
  intros Hx Hy H. unfold PyStr.digit_char in H.
  apply (f_equal nat_of_ascii) in H.
  rewrite !nat_ascii_embedding in H by lia. lia.
Qed.

Lemma zero_padded3_inj h1 h2 :
  0 <= h1 <= 999 -> 0 <= h2 <= 999 ->
  zero_padded3 h1 = zero_padded3 h2 -> h1 = h2.
Proof.
  intros H1 H2 H. unfold zero_padded3 in H. injection H as Ha Hb Hc.
  apply digit_char_inj in Ha, Hb, Hc; Z.div_mod_to_equations; lia.
Qed.

(** X6: for one variable, two run identifiers of the same length and two
    horizons have the same URL only if they are the same: the URLs, and
    so the names of the files, tell runs and horizons apart. *)
Theorem getURL_injective cat v r1 r2 h1 h2 u :
  String.length r1 = String.length r2 ->
  __getURL cat v r1 h1 = Ok u ->
  __getURL cat v r2 h2 = Ok u ->
  r1 = r2 /\ h1 = h2.
Proof.
  intros Hl H1 H2.
  destruct (getURL_Ok_inv _ _ _ _ _ H1) as (name & level & band & Hv & Hh1).
  destruct (getURL_Ok_inv _ _ _ _ _ H2) as (? & ? & ? & Hv' & Hh2).
  rewrite (getURL_ok cat v name level band) in H1, H2 by done.
  rewrite <- H2 in H1. injection H1 as H.
  apply valid_hours_true in Hh1, Hh2.
  rewrite !fmt_d_zero_padded3 in H by lia.
  rewrite <- !append_assoc in H.
  apply append_inj_length in H as [H _]; [|reflexivity].
  apply append_inj_length in H as [H Hp]; [|reflexivity].
  apply append_inj_length in H as [H _]; [|reflexivity].
  apply append_inj_length in H as [_ Hr]; [|done].
  split; [done|]. apply zero_padded3_inj in Hp; lia.
Qed.

Lemma getURL_injective_witness :
  "2024010100" = "2024010100" /\ 6 = 6.
Proof.
  apply (getURL_injective t2m_catalog "t_2m" "2024010100" "2024010100" 6 6
           "https://opendata.dwd.de/weather/icon/global/grib/00/t_2m/ICON_iko_single-level_elements_world_T_2M_2024010100_006.grib2.bz2");
    reflexivity.
Defined.

(** ** The fetch orchestrator *)

Section FetchFacts.

Variable ICON_VARIABLES : gmap string (string * string * Z).
Variable Archive : Type.
Variable downloadAndCompile :
  string -> Z -> gmap string string -> result Archive.

Lemma build_urls_lookup ids tid h acc urls :
  build_urls ICON_VARIABLES ids tid h acc = Ok urls ->
  forall v,
    urls !! v
    = if decide (v ∈ ids) then
        match __getURL ICON_VARIABLES v tid h with
        | Ok u => Some u
        | Raise _ => None
        end
      else acc !! v.
Proof.
  revert acc. induction ids as [|x ids IH]; intros acc H v.
  - injection H as <-. by rewrite decide_False by set_solver.
  - simpl in H.
    destruct (__getURL ICON_VARIABLES x tid h) as [u|e] eqn:Hx; [|done].
    rewrite bind_Ok in H. rewrite (IH _ H v).
    destruct (decide (v = x)) as [-> | Hne].
    + rewrite (decide_True (P := x ∈ x :: ids)) by set_solver. rewrite Hx.
      destruct (decide (x ∈ ids)); [done|]. by rewrite lookup_insert_eq.
    + destruct (decide (v ∈ ids)).
      * by rewrite decide_True by set_solver.
      * rewrite decide_False by (intros [?|?]%elem_of_cons; done).
        by rewrite lookup_insert_ne.
Qed.

(** X7: [__downloadAndCompile] hands the external download one URL for
    each identifier of the catalog, the one that [__getURL] builds, when
    the horizon is valid; with an invalid horizon and a catalog that is
    not empty it raises before the external download is called; with an
    empty catalog no horizon is checked at all. *)
Theorem downloadAndCompile_cases timeIdentifier hours :
  (valid_hours hours = true ->
   exists downloadURLs,
     __downloadAndCompile ICON_VARIABLES Archive downloadAndCompile
       timeIdentifier hours
     = downloadAndCompile timeIdentifier hours downloadURLs
     /\ forall variableID url,
         downloadURLs !! variableID = Some url <->
         __getURL ICON_VARIABLES variableID timeIdentifier hours = Ok url)
  /\ (valid_hours hours = false -> ICON_VARIABLES <> ∅ ->
      __downloadAndCompile ICON_VARIABLES Archive downloadAndCompile
        timeIdentifier hours
      = Raise invalid_forecast_hour)
  /\ (ICON_VARIABLES = ∅ ->
      __downloadAndCompile ICON_VARIABLES Archive downloadAndCompile
        timeIdentifier hours
      = downloadAndCompile timeIdentifier hours ∅).
Proof.
  split; [|split].
  - intros Hh.
    destruct (build_urls_ok ICON_VARIABLES (map_to_list ICON_VARIABLES).*1
                timeIdentifier hours ∅ (catalog_ids_in ICON_VARIABLES) Hh)
      as [urls Hurls].
    exists urls. unfold __downloadAndCompile. rewrite Hurls, bind_Ok.
    split; [done|]. intros v url.
    rewrite (build_urls_lookup _ _ _ _ _ Hurls v), lookup_empty.
    destruct (decide (v ∈ (map_to_list ICON_VARIABLES).*1)) as [Hin | Hnin].
    + destruct (__getURL ICON_VARIABLES v timeIdentifier hours) as [u|e].
      * split; intros H; injection H as H; by subst.
      * split; intros H; discriminate H.
    + split; [done|]. intros Hu.
      destruct (getURL_Ok_inv _ _ _ _ _ Hu) as (name & level & band & Hv & _).
      exfalso. apply Hnin. apply list_elem_of_fmap.
      exists (v, (name, level, band)). split; [done|].
      by apply elem_of_map_to_list.
  - intros Hh Hne. unfold __downloadAndCompile.
    rewrite build_urls_invalid; [done | | | done].
    + by apply catalog_ids_nonempty.
    + apply catalog_ids_in.
  - intros ->. unfold __downloadAndCompile. by rewrite map_to_list_empty.
Qed.

(** X8: [downloadForecastFromRuntime] accepts the horizons from 1 to 180
    that are multiples of 3 above 78, all of which [__getURL] accepts, and
    calls the external download for the governing run; every other
    horizon, 0 among them, raises. *)
Theorem downloadForecastFromRuntime_cases utcnow forecastHoursFromRuntime :
  datetime.in_range (datetime.to_us utcnow - datetime.hours 3) ->
  exists timeIdentifier downloadTime,
    __getDownloadTimeInfo utcnow = Ok (timeIdentifier, downloadTime)
    /\ (1 <= forecastHoursFromRuntime <= 180 ->
        (78 < forecastHoursFromRuntime -> forecastHoursFromRuntime mod 3 = 0) ->
        exists downloadURLs,
          build_urls ICON_VARIABLES (map_to_list ICON_VARIABLES).*1
            timeIdentifier forecastHoursFromRuntime ∅ = Ok downloadURLs
          /\ downloadForecastFromRuntime ICON_VARIABLES Archive
               downloadAndCompile utcnow forecastHoursFromRuntime
             = downloadAndCompile timeIdentifier forecastHoursFromRuntime
                 downloadURLs)
    /\ (forecastHoursFromRuntime < 1 \/ 180 < forecastHoursFromRuntime
        \/ (78 < forecastHoursFromRuntime
            /\ forecastHoursFromRuntime mod 3 <> 0) ->
        downloadForecastFromRuntime ICON_VARIABLES Archive downloadAndCompile
          utcnow forecastHoursFromRuntime
        = Raise (Exception "Requested forecast hour invalid.")).
Proof.
  intros Hr.
  destruct (getDownloadTimeInfo_ok utcnow Hr) as (tid & dl & Hinfo & _).
  exists tid, dl. split; [exact Hinfo|].
  unfold downloadForecastFromRuntime. rewrite Hinfo, bind_Ok.
  set (h := forecastHoursFromRuntime). split.
  - intros Hh Hm.
    assert (Hv : valid_hours h = true) by (apply valid_hours_true; lia).
    destruct (build_urls_ok ICON_VARIABLES (map_to_list ICON_VARIABLES).*1
                tid h ∅ (catalog_ids_in ICON_VARIABLES) Hv) as [urls Hurls].
    exists urls. split; [exact Hurls|].
    destruct (Z.leb_spec 1 h); [|lia]. destruct (Z.ltb_spec h 181); [|lia].
    destruct (Z.ltb_spec 78 h).
    + rewrite (proj2 (Z.eqb_eq _ _) (Hm ltac:(lia))). simpl.
      unfold __downloadAndCompile. by rewrite Hurls.
    + simpl. unfold __downloadAndCompile. by rewrite Hurls.
  - intros H.
    destruct (Z.leb_spec 1 h); [|done].
    destruct (Z.ltb_spec h 181); [|done].
    destruct (Z.ltb_spec 78 h); [|lia].
    destruct (Z.eqb_spec (h mod 3) 0); [lia | done].
Qed.

(** X9: the URLs of a call lie in the directory of one of the four runs of
    the day: with the run identifier of [__getDownloadTimeInfo], the hour
    segment that [__getURL] writes is 00, 06, 12 or 18. *)
Theorem getURL_run_directory utcnow variableID hours url :
  datetime.in_range (datetime.to_us utcnow - datetime.hours 3) ->
  exists timeIdentifier downloadTime,
    __getDownloadTimeInfo utcnow = Ok (timeIdentifier, downloadTime)
    /\ (__getURL ICON_VARIABLES variableID timeIdentifier hours = Ok url ->
        exists hh rest,
          hh ∈ run_hours
          /\ url = "https://opendata.dwd.de/weather/icon/global/grib/"
                   ++ hh ++ "/" ++ rest).
Proof.
  intros Hr.
  destruct (getDownloadTimeInfo_ok utcnow Hr) as (tid & dl & Hinfo & _ & Hhh & _).
  exists tid, dl. split; [exact Hinfo|]. intros Hu.
  destruct (getURL_Ok_inv _ _ _ _ _ Hu) as (name & level & band & Hv & Hh).
  rewrite (getURL_ok _ _ name level band) in Hu by done.
  injection Hu as <-. by eexists _, _.
Qed.

End FetchFacts.

Lemma downloadForecastFromRuntime_cases_witness :
  exists timeIdentifier downloadTime,
    __getDownloadTimeInfo clock_2024_01_02_0711
    = Ok (timeIdentifier, downloadTime)
    /\ downloadForecastFromRuntime t2m_catalog unit (fun _ _ _ => Ok tt)
         clock_2024_01_02_0711 0
       = Raise (Exception "Requested forecast hour invalid.").
Proof.
  destruct (downloadForecastFromRuntime_cases t2m_catalog unit
              (fun _ _ _ => Ok tt) clock_2024_01_02_0711 0)
    as (tid & dl & Hinfo & _ & Hbad).
  - vm_compute. split; [discriminate | reflexivity].
  - exists tid, dl. split; [exact Hinfo|]. apply Hbad. lia.
Defined.

Lemma getURL_run_directory_witness :
  exists timeIdentifier downloadTime,
    __getDownloadTimeInfo clock_2024_01_02_0711
    = Ok (timeIdentifier, downloadTime)
    /\ (__getURL t2m_catalog "t_2m" timeIdentifier 6
        = Ok "https://opendata.dwd.de/weather/icon/global/grib/00/t_2m/ICON_iko_single-level_elements_world_T_2M_2024010200_006.grib2.bz2" ->
        exists hh rest,
          hh ∈ run_hours
          /\ "https://opendata.dwd.de/weather/icon/global/grib/00/t_2m/ICON_iko_single-level_elements_world_T_2M_2024010200_006.grib2.bz2"
             = "https://opendata.dwd.de/weather/icon/global/grib/"
               ++ hh ++ "/" ++ rest).
Proof.
  apply (getURL_run_directory t2m_catalog clock_2024_01_02_0711).
  vm_compute. split; [discriminate | reflexivity].
Defined.

Lemma downloadAndCompile_cases_witness :
  __downloadAndCompile t2m_catalog unit (fun _ _ _ => Ok tt) "2024010100" 79
  = Raise invalid_forecast_hour
  /\ __downloadAndCompile ∅ unit (fun _ _ _ => Ok tt) "2024010100" 79 = Ok tt.
Proof.
  split.
  - apply (downloadAndCompile_cases t2m_catalog unit (fun _ _ _ => Ok tt)
             "2024010100" 79); [reflexivity|].
    intros Hempty. apply (f_equal (lookup "t_2m")) in Hempty.
    discriminate Hempty.
  - by apply (downloadAndCompile_cases ∅ unit (fun _ _ _ => Ok tt)
                "2024010100" 79).
Defined.

(** ** The file name patterns *)

Lemma digits_spec k s ds rest :
  Re.digits k s = Some (ds, rest) ->
  s = ds ++ rest /\ String.length ds = k /\ PyStr.all_digits ds = true.
Proof.
  revert s ds rest. induction k as [|k IH]; intros s ds rest H; simpl in H.
  - by injection H as <- <-.
  - destruct s as [|c s]; [done|].
    destruct (PyStr.is_digit c) eqn:Hc; [|done].
    destruct (Re.digits k s) as [[ds' rest']|] eqn:Hk; [|done].
    simpl in H. injection H as <- <-.
    destruct (IH _ _ _ Hk) as (-> & <- & Hd).
    rewrite append_cons. simpl. by rewrite Hc, Hd.
Qed.

Lemma digits_complete ds rest :
  PyStr.all_digits ds = true ->
  Re.digits (String.length ds) (ds ++ rest) = Some (ds, rest).
Proof.
  induction ds as [|c ds IH]; [done|]. cbn [PyStr.all_digits].
  intros [Hc Hd]%andb_true_iff. rewrite append_cons.
  cbn [String.length Re.digits]. by rewrite Hc, (IH Hd).
Qed.

Lemma startswith_app p s : PyStr.startswith p (p ++ s) = true.
Proof.
  induction p as [|c p IH]; [by destruct s|].
  rewrite append_cons. simpl. by rewrite Ascii.eqb_refl.
Qed.

Lemma startswith_spec p s :
  PyStr.startswith p s = true -> s = p ++ PyStr.drop (String.length p) s.
Proof.
  revert s. induction p as [|c p IH]; intros s H; [done|].
  destruct s as [|c' s]; [done|]. simpl in H.
  apply andb_true_iff in H as [Hc H]. apply Ascii.eqb_eq in Hc as ->.
  rewrite append_cons. simpl. f_equal. by apply IH.
Qed.

Lemma lit_spec p s rest : Re.lit p s = Some rest <-> s = p ++ rest.
Proof.
  unfold Re.lit. split.
  - destruct (PyStr.startswith p s) eqn:Hp; [|done].
    intros [= <-]. by apply startswith_spec.
  - intros ->. by rewrite startswith_app, drop_length_app.
Qed.

Lemma search_spec at_head s g :
  Re.search at_head s = Some g ->
  exists pre suf, s = pre ++ suf /\ at_head suf = Some g.
Proof.
  induction s as [|c s IH]; simpl.
  - destruct (at_head "") eqn:H0; [|done]. intros [= ->]. by exists "", "".
  - destruct (at_head (String c s)) eqn:H0.
    + intros [= ->]. by exists "", (String c s).
    + intros H. destruct (IH H) as (pre & suf & -> & Hsuf).
      by exists (String c pre), suf.
Qed.

Lemma search_complete at_head pre suf :
  is_Some (at_head suf) -> is_Some (Re.search at_head (pre ++ suf)).
Proof.
  intros Hs. induction pre as [|c pre IH].
  - simpl. destruct suf; simpl; destruct Hs as [g ->]; by eexists.
  - rewrite append_cons. simpl.
    destruct (at_head (String c (pre ++ suf))); [by eexists | exact IH].
Qed.

Lemma search_forecast_sound name g :
  Re.search Re.forecast_at name = Some g ->
  String.length g = 10%nat /\ PyStr.all_digits g = true
  /\ exists pre post, name = pre ++ "forecast-" ++ g ++ post.
Proof.
  intros H. apply search_spec in H as (pre & suf & -> & H).
  unfold Re.forecast_at in H.
  destruct (Re.lit "forecast-" suf) as [rest|] eqn:Hl;
    cbn [mbind option_bind] in H; [|discriminate H].
  apply lit_spec in Hl as ->.
  destruct (Re.digits 10 rest) as [[ds post]|] eqn:Hd;
    cbn [mbind option_bind] in H; [|discriminate H].
  injection H as <-.
  apply digits_spec in Hd as (-> & Hlen & Hdig). eauto 6.
Qed.

(** X10: the search for forecast-<10 digits> finds an identifier exactly in
    the names that hold the word forecast-, ten decimal digits after it;
    what it returns is ten digits that stand in the name after the word,
    and so are the keys of the archive index. *)
Theorem search_forecast_spec name :
  (forall g, Re.search Re.forecast_at name = Some g ->
             String.length g = 10%nat /\ PyStr.all_digits g = true
             /\ exists pre post, name = pre ++ "forecast-" ++ g ++ post)
  /\ (is_Some (Re.search Re.forecast_at name) <->
      exists pre g post,
        name = pre ++ "forecast-" ++ g ++ post
        /\ String.length g = 10%nat /\ PyStr.all_digits g = true).
Proof.
  pose proof (search_forecast_sound name) as Hsound.
  split; [exact Hsound|]. split.
  - intros [g Hg]. destruct (Hsound g Hg) as (? & ? & pre & post & ->).
    by exists pre, g, post.
  - intros (pre & g & post & -> & Hl & Hd). apply search_complete.
    unfold Re.forecast_at.
    rewrite (proj2 (lit_spec "forecast-" _ (g ++ post)) eq_refl).
    cbn [mbind option_bind].
    rewrite <- Hl, (digits_complete g post Hd). by eexists.
Qed.

(** X11: the search for <10 digits>_<3 digits> finds a run identifier
    exactly in the names that hold ten decimal digits, an underscore and
    three decimal digits in a row. *)
Theorem search_run_horizon_spec name :
  (forall g, Re.search Re.run_horizon_at name = Some g ->
             String.length g = 10%nat /\ PyStr.all_digits g = true
             /\ exists pre hhh post,
                  name = pre ++ g ++ "_" ++ hhh ++ post
                  /\ String.length hhh = 3%nat
                  /\ PyStr.all_digits hhh = true)
  /\ (is_Some (Re.search Re.run_horizon_at name) <->
      exists pre g hhh post,
        name = pre ++ g ++ "_" ++ hhh ++ post
        /\ String.length g = 10%nat /\ PyStr.all_digits g = true
        /\ String.length hhh = 3%nat /\ PyStr.all_digits hhh = true).
Proof.
  assert (Hsound : forall g, Re.search Re.run_horizon_at name = Some g ->
             String.length g = 10%nat /\ PyStr.all_digits g = true
             /\ exists pre hhh post,
                  name = pre ++ g ++ "_" ++ hhh ++ post
                  /\ String.length hhh = 3%nat
                  /\ PyStr.all_digits hhh = true).
  { intros g H. apply search_spec in H as (pre & suf & -> & H).
    unfold Re.run_horizon_at in H.
    destruct (Re.digits 10 suf) as [[ds rest]|] eqn:Hd; cbn [mbind option_bind] in H;
      [|discriminate H].
    destruct (Re.lit "_" rest) as [rest'|] eqn:Hl; cbn [mbind option_bind] in H;
      [|discriminate H].
    apply lit_spec in Hl as ->.
    destruct (Re.digits 3 rest') as [[hs post]|] eqn:Hh; cbn [mbind option_bind] in H;
      [|discriminate H].
    injection H as <-.
    apply digits_spec in Hd as (-> & Hlen & Hdig).
    apply digits_spec in Hh as (-> & Hlen' & Hdig'). eauto 8. }
  split; [exact Hsound|]. split.
  - intros [g Hg].
    destruct (Hsound g Hg) as (? & ? & pre & hhh & post & -> & ? & ?).
    by exists pre, g, hhh, post.
  - intros (pre & g & hhh & post & -> & Hl & Hd & Hl' & Hd').
    apply search_complete. unfold Re.run_horizon_at.
    rewrite <- Hl, (digits_complete g _ Hd). cbn [mbind option_bind].
    rewrite (proj2 (lit_spec "_" _ (hhh ++ post)) eq_refl).
    cbn [mbind option_bind].
    rewrite <- Hl', (digits_complete hhh post Hd'). by eexists.
Qed.

(** ** The archive index, continued *)

Lemma listDatabase_step_cases tempDir ret e :
  listDatabase_step tempDir ret e = ret
  \/ exists g t,
       PyStr.endswith (os.join tempDir (os.d_name e)) ".icondb" = true
       /\ os.d_isfile e = true
       /\ Re.search Re.forecast_at (os.d_name e) = Some g
       /\ timeIdentifierToDatetime g = Ok t
       /\ listDatabase_step tempDir ret e
          = <[g := mk_archive_info (os.join tempDir (os.d_name e)) t]> ret.
Proof.
  unfold listDatabase_step.
  destruct (PyStr.endswith _ ".icondb") eqn:Hext; [|by left].
  destruct (os.d_isfile e) eqn:Hf; [|by left]. cbn [negb].
  destruct (Re.search Re.forecast_at (os.d_name e)) as [g|] eqn:Hg; [|by left].
  destruct (timeIdentifierToDatetime g) as [t|] eqn:Ht; [|by left].
  right. exists g, t. repeat split; first [assumption | reflexivity].
Qed.

Lemma listDatabase_fold_sound tempDir listing ret k info :
  foldl (listDatabase_step tempDir) ret listing !! k = Some info ->
  ret !! k = Some info
  \/ exists e,
       In e listing /\ os.d_isfile e = true
       /\ PyStr.endswith (os.join tempDir (os.d_name e)) ".icondb" = true
       /\ Re.search Re.forecast_at (os.d_name e) = Some k
       /\ timeIdentifierToDatetime k = Ok (forecasttime info)
       /\ path info = os.join tempDir (os.d_name e).
Proof.
  revert ret. induction listing as [|e l IH]; intros ret H; [by left|].
  simpl in H. apply IH in H as [H | (e' & He' & H)].
  - destruct (listDatabase_step_cases tempDir ret e)
      as [Hs | (g & t & Hext & Hf & Hg & Ht & Hs)]; rewrite Hs in H.
    + by left.
    + destruct (decide (g = k)) as [-> | Hne].
      * rewrite lookup_insert_eq in H. injection H as <-.
        right. exists e. simpl. tauto.
      * rewrite lookup_insert_ne in H by done. by left.
  - right. exists e'. simpl. tauto.
Qed.

(** X12: every entry of the index of [listDatabase] stems from a regular
    file of the directory with the archive extension: the key is the
    identifier found in its name, ten decimal digits, the time is the
    identifier read as a datetime, the path is the path of the file. *)
Theorem listDatabase_sound tempDir listing k info :
  listDatabase tempDir listing !! k = Some info ->
  String.length k = 10%nat /\ PyStr.all_digits k = true
  /\ exists e,
       In e listing /\ os.d_isfile e = true
       /\ PyStr.endswith (os.join tempDir (os.d_name e)) ".icondb" = true
       /\ Re.search Re.forecast_at (os.d_name e) = Some k
       /\ timeIdentifierToDatetime k = Ok (forecasttime info)
       /\ path info = os.join tempDir (os.d_name e).
Proof.
  intros H. apply listDatabase_fold_sound in H as [H | (e & He)].
  - by rewrite lookup_empty in H.
  - destruct He as (Hin & Hf & Hext & Hg & Hrest).
    destruct (search_forecast_sound (os.d_name e) k Hg) as (Hl & Hd & _).
    split; [done|]. split; [done|]. by exists e.
Qed.

Lemma listDatabase_sound_witness :
  String.length "2024010122" = 10%nat
  /\ PyStr.all_digits "2024010122" = true
  /\ exists e,
       In e sample_listing /\ os.d_isfile e = true
       /\ PyStr.endswith (os.join "/var/icon" (os.d_name e)) ".icondb" = true
       /\ Re.search Re.forecast_at (os.d_name e) = Some "2024010122"
       /\ timeIdentifierToDatetime "2024010122"
          = Ok (datetime.mk_datetime 2024 1 1 22 0 0 0)
       /\ "/var/icon/forecast-2024010122.icondb"
          = os.join "/var/icon" (os.d_name e).
Proof.
  apply (listDatabase_sound "/var/icon" sample_listing "2024010122"
           (mk_archive_info "/var/icon/forecast-2024010122.icondb"
              (datetime.mk_datetime 2024 1 1 22 0 0 0))).
  vm_compute. reflexivity.
Defined.

(** X13: the last file with an identifier wins: a regular archive file
    whose identifier is a datetime is the entry of this identifier when no
    later file of the listing has the same identifier. *)
Theorem listDatabase_last_wins tempDir l1 e l2 g t :
  os.d_isfile e = true ->
  PyStr.endswith (os.join tempDir (os.d_name e)) ".icondb" = true ->
  Re.search Re.forecast_at (os.d_name e) = Some g ->
  timeIdentifierToDatetime g = Ok t ->
  Forall (fun e' => Re.search Re.forecast_at (os.d_name e') <> Some g) l2 ->
  listDatabase tempDir (l1 ++ e :: l2) !! g
  = Some (mk_archive_info (os.join tempDir (os.d_name e)) t).
Proof.
  intros Hf Hext Hg Ht Hl2. unfold listDatabase. rewrite foldl_app. simpl.
  set (ret := foldl _ ∅ l1). clearbody ret.
  assert (Hstep : listDatabase_step tempDir ret e
                  = <[g := mk_archive_info (os.join tempDir (os.d_name e)) t]> ret)
    by (unfold listDatabase_step; by rewrite Hext, Hf, Hg, Ht).
  rewrite Hstep.
  assert (Hkeep : forall m,
             foldl (listDatabase_step tempDir) m l2 !! g = m !! g).
  { induction Hl2 as [|e' l2 He' _ IH]; intros m; [done|]. simpl.
    rewrite IH.
    destruct (listDatabase_step_cases tempDir m e')
      as [-> | (g' & t' & _ & _ & Hg' & _ & ->)]; [done|].
    apply lookup_insert_ne. congruence. }
  by rewrite Hkeep, lookup_insert_eq.
Qed.

Lemma listDatabase_last_wins_witness :
  listDatabase "/var/icon"
    ([os.mk_dirent "old-forecast-2024010122.icondb" true]
     ++ os.mk_dirent "forecast-2024010122.icondb" true
     :: [os.mk_dirent "notes.txt" true]) !! "2024010122"
  = Some (mk_archive_info "/var/icon/forecast-2024010122.icondb"
            (datetime.mk_datetime 2024 1 1 22 0 0 0)).
Proof.
  apply (listDatabase_last_wins "/var/icon"
           [os.mk_dirent "old-forecast-2024010122.icondb" true]
           (os.mk_dirent "forecast-2024010122.icondb" true)
           [os.mk_dirent "notes.txt" true]); try reflexivity.
  repeat constructor. discriminate.
Defined.

(** ** The retention janitor, continued *)

Lemma add_overflow t delta :
  ~ datetime.in_range (datetime.to_us t + delta) ->
  datetime.add t delta = Raise OverflowError.
Proof.
  intros Hr. unfold datetime.add.
  set (total := datetime.to_us t + delta) in *. clearbody total.
  destruct (Z.ltb_spec 0 (total / datetime.US_PER_DAY)) as [H0 | H0];
    [|reflexivity].
  destruct (Z.leb_spec (total / datetime.US_PER_DAY) datetime.MAXORDINAL)
    as [H1 | H1]; [|reflexivity].
  exfalso. apply Hr. unfold datetime.in_range.
  unfold datetime.US_PER_DAY, datetime.US_PER_SECOND, datetime.MAXORDINAL in *.
  Z.div_mod_to_equations. lia.
Qed.

(** X14: a retention that reaches back before the first day of year 1 makes
    [cleanUp] raise [OverflowError] when it computes the cut-off; no file
    is deleted. *)
Theorem cleanUp_overflow utcnow archiveLife tempDir listing :
  ~ datetime.in_range (datetime.to_us utcnow - datetime.hours archiveLife) ->
  cleanUp utcnow archiveLife tempDir listing = Raise OverflowError.
Proof.
  intros Hr. unfold cleanUp, datetime.sub.
  rewrite (add_overflow utcnow (- datetime.hours archiveLife));
    [reflexivity|].
  by rewrite Z.add_opp_r.
Qed.

Lemma cleanUp_overflow_witness :
  cleanUp clock_2024_01_02 100000000 "/var/icon" sample_listing
  = Raise OverflowError.
Proof.
  apply cleanUp_overflow. vm_compute. intros [H _]. by apply H.
Defined.

Lemma filter_none {A : Type} (f : A -> bool) (l : list A) :
  (forall x, In x l -> f x = false) -> List.filter f l = [].
Proof.
  induction l as [|x l IH]; intros H; [done|]. simpl.
  rewrite (H x) by (by left). apply IH. intros y Hy. apply H. by right.
Qed.

Lemma cleanUp_Ok_inv utcnow archiveLife tempDir listing delList remaining :
  cleanUp utcnow archiveLife tempDir listing = Ok (delList, remaining) ->
  exists before1 before2,
    datetime.sub utcnow (datetime.hours archiveLife) = Ok before1
    /\ datetime.sub utcnow (datetime.hours 1) = Ok before2
    /\ delList
       = (List.filter (stale Re.run_horizon_at before1)
            (filterDirWithSuffix tempDir listing grib_suffixes)
          ++ List.filter (stale Re.forecast_at before2)
               (filterDirWithSuffix tempDir listing icondb_suffixes))%list
    /\ remaining
       = foldl (fun l each => unlink tempDir each l) listing delList.
Proof.
  unfold cleanUp.
  destruct (datetime.sub utcnow (datetime.hours archiveLife)) as [b1|];
    [|discriminate].
  destruct (datetime.sub utcnow (datetime.hours 1)) as [b2|]; [|discriminate].
  rewrite !bind_Ok. intros H. injection H as <- <-. by exists b1, b2.
Qed.

(** X15: [cleanUp] is idempotent at one clock reading: run again on what it
    left, it deletes nothing and leaves the directory as it is. *)
Theorem cleanUp_idempotent utcnow archiveLife tempDir listing delList remaining :
  cleanUp utcnow archiveLife tempDir listing = Ok (delList, remaining) ->
  cleanUp utcnow archiveLife tempDir remaining = Ok ([], remaining).
Proof.
  intros H.
  destruct (cleanUp_Ok_inv _ _ _ _ _ _ H) as (b1 & b2 & Hb1 & Hb2 & Hdel & Hrem).
  assert (Hkept : forall suffixes p,
             In p (filterDirWithSuffix tempDir remaining suffixes) ->
             In p (filterDirWithSuffix tempDir listing suffixes)
             /\ ~ In p delList).
  { intros suffixes p Hp.
    apply filterDirWithSuffix_In in Hp as (e & He & -> & Hf & Hs).
    rewrite Hrem in He. apply unlink_all in He as [He Hnot].
    split; [|done]. apply filterDirWithSuffix_In. by exists e. }
  unfold cleanUp. rewrite Hb1, bind_Ok, Hb2, bind_Ok.
  rewrite !filter_none; [reflexivity | |].
  - intros p Hp. destruct (Hkept _ _ Hp) as [Hin Hnot].
    apply not_true_is_false. intros Hst. apply Hnot. rewrite Hdel.
    apply in_app_iff. right. by apply filter_In.
  - intros p Hp. destruct (Hkept _ _ Hp) as [Hin Hnot].
    apply not_true_is_false. intros Hst. apply Hnot. rewrite Hdel.
    apply in_app_iff. left. by apply filter_In.
Qed.

Lemma cleanUp_idempotent_witness :
  cleanUp clock_2024_01_02 24 "/var/icon"
    [os.mk_dirent "forecast-2024010123.icondb" true;
     os.mk_dirent "notes.txt" true]
  = Ok ([], [os.mk_dirent "forecast-2024010123.icondb" true;
             os.mk_dirent "notes.txt" true]).
Proof.
  apply (cleanUp_idempotent clock_2024_01_02 24 "/var/icon" sample_listing
           ["/var/icon/2023123100_006.grib2";
            "/var/icon/forecast-2024010122.icondb";
            "/var/icon/forecast-abcdefghij.icondb";
            "/var/icon/forecast-2024010100.icondb.temp";
            "/var/icon/forecast-2024019900.icondb.checksum"]).
  vm_compute. reflexivity.
Defined.



Lemma add_Ok_inv t delta t' :
  datetime.add t delta = Ok t' ->
  datetime.in_range (datetime.to_us t + delta).
Proof.
  unfold datetime.add.
  set (total := datetime.to_us t + delta). clearbody total.
  destruct (Z.ltb_spec 0 (total / datetime.US_PER_DAY)) as [H0 | H0];
    [|discriminate].
  destruct (Z.leb_spec (total / datetime.US_PER_DAY) datetime.MAXORDINAL)
    as [H1 | H1]; [|discriminate].
  intros _. unfold datetime.in_range.
  unfold datetime.US_PER_DAY, datetime.US_PER_SECOND, datetime.MAXORDINAL in *.
  Z.div_mod_to_equations. lia.
Qed.

Lemma add_Ok_to_us t delta t' :
  datetime.add t delta = Ok t' ->
  datetime.to_us t' = datetime.to_us t + delta.
Proof.
  intros H.
  destruct (add_ok t delta (add_Ok_inv t delta t' H)) as (t'' & Hs & _ & Hus).
  assert (Heq : Ok t'' = Ok t') by (rewrite <- Hs; exact H).
  injection Heq as <-. exact Hus.
Qed.

Lemma sub_eq_add t delta : datetime.sub t delta = datetime.add t (- delta).
Proof. unfold datetime.sub. reflexivity. Qed.

Lemma sub_Ok_inv t delta t' :
  datetime.sub t delta = Ok t' ->
  datetime.to_us t' = datetime.to_us t - delta.
Proof.
  rewrite sub_eq_add. intros H. rewrite <- Z.add_opp_r.
  exact (add_Ok_to_us t (- delta) t' H).
Qed.

Lemma stale_mono pattern before1 before2 p :
  datetime.to_us before1 <= datetime.to_us before2 ->
  stale pattern before1 p = true -> stale pattern before2 p = true.
Proof.
  intros Hle. unfold stale.
  destruct (Re.search pattern (os.basename p)) as [g|]; [|done].
  destruct (timeIdentifierToDatetime g) as [rt|]; [|done].
  rewrite !isOlderThan_spec. lia.
Qed.

(** X17: what [cleanUp] deletes grows with the clock and shrinks with the
    retention: every file deleted at one reading and retention is deleted
    at a later reading whose raw cut-off is not earlier. *)
Theorem cleanUp_monotone utcnow1 utcnow2 life1 life2 tempDir listing
    del1 rem1 del2 rem2 :
  cleanUp utcnow1 life1 tempDir listing = Ok (del1, rem1) ->
  cleanUp utcnow2 life2 tempDir listing = Ok (del2, rem2) ->
  datetime.to_us utcnow1 <= datetime.to_us utcnow2 ->
  datetime.to_us utcnow1 - datetime.hours life1
  <= datetime.to_us utcnow2 - datetime.hours life2 ->
  forall p, In p del1 -> In p del2.
Proof.
  intros H1 H2 Hnow Hcut p.
  destruct (cleanUp_Ok_inv _ _ _ _ _ _ H1) as (a1 & a2 & Ha1 & Ha2 & -> & _).
  destruct (cleanUp_Ok_inv _ _ _ _ _ _ H2) as (b1 & b2 & Hb1 & Hb2 & -> & _).
  apply sub_Ok_inv in Ha1, Ha2, Hb1, Hb2.
  rewrite !in_app_iff, !filter_In.
  intros [[Hin Hst] | [Hin Hst]]; [left | right]; (split; [done|]);
    revert Hst; apply stale_mono; lia.
Qed.

Lemma cleanUp_monotone_witness :
  In "/var/icon/2023123100_006.grib2"
    ["/var/icon/2023123100_006.grib2";
     "/var/icon/forecast-2024010123.icondb";
     "/var/icon/forecast-2024010122.icondb";
     "/var/icon/forecast-abcdefghij.icondb";
     "/var/icon/forecast-2024010100.icondb.temp";
     "/var/icon/forecast-2024019900.icondb.checksum"].
Proof.
  apply (cleanUp_monotone clock_2024_01_02 clock_2024_01_02_0711 24 12
           "/var/icon" sample_listing
           ["/var/icon/2023123100_006.grib2";
            "/var/icon/forecast-2024010122.icondb";
            "/var/icon/forecast-abcdefghij.icondb";
            "/var/icon/forecast-2024010100.icondb.temp";
            "/var/icon/forecast-2024019900.icondb.checksum"]
           [os.mk_dirent "forecast-2024010123.icondb" true;
            os.mk_dirent "notes.txt" true]
           ["/var/icon/2023123100_006.grib2";
            "/var/icon/forecast-2024010123.icondb";
            "/var/icon/forecast-2024010122.icondb";
            "/var/icon/forecast-abcdefghij.icondb";
            "/var/icon/forecast-2024010100.icondb.temp";
            "/var/icon/forecast-2024019900.icondb.checksum"]
           [os.mk_dirent "notes.txt" true]).
  - vm_compute. reflexivity.
  - vm_compute. reflexivity.
  - vm_compute. discriminate.
  - vm_compute. discriminate.
  - simpl. tauto.
Defined.

(** ** From the locator to the janitor *)

Lemma digits_app_nondigit k s c rest :
  Re.digits k s = None -> PyStr.is_digit c = false ->
  Re.digits k (s ++ String c rest) = None.
Proof.
  revert s. induction k as [|k IH]; intros s H Hc; [done|].
  destruct s as [|x s].
  - rewrite append_nil. cbn [Re.digits]. by rewrite Hc.
  - rewrite append_cons. cbn [Re.digits] in *.
    destruct (PyStr.is_digit x); [|done].
    destruct (Re.digits k s) as [[ds r]|] eqn:Hk; [discriminate H|].
    by rewrite (IH s Hk Hc).
Qed.

Lemma no_run_app a c b :
  Re.search ten_digits_at a = None ->
  PyStr.is_digit c = false ->
  Re.search ten_digits_at b = None ->
  Re.search ten_digits_at (a ++ String c b) = None.
Proof.
  intros Ha Hc Hb. induction a as [|x a IH].
  - rewrite append_nil. cbn [Re.search]. unfold ten_digits_at at 1.
    cbn [Re.digits]. by rewrite Hc.
  - rewrite append_cons. cbn [Re.search] in *.
    destruct (ten_digits_at (String x a)) eqn:Hx; [discriminate Ha|].
    assert (Hx' : ten_digits_at (String x (a ++ String c b)) = None).
    { unfold ten_digits_at in *. rewrite <- append_cons.
      destruct (Re.digits 10 (String x a)) eqn:Hd; [discriminate Hx|].
      by rewrite (digits_app_nondigit _ _ _ _ Hd Hc). }
    rewrite Hx'. by apply IH.
Qed.

Lemma search_after_prefix pre c rest :
  Re.search ten_digits_at pre = None ->
  PyStr.is_digit c = false ->
  Re.search Re.run_horizon_at (pre ++ String c rest)
  = Re.search Re.run_horizon_at rest.
Proof.
  intros Hpre Hc.
  assert (Hsep : Re.run_horizon_at (String c rest) = None)
    by (unfold Re.run_horizon_at; cbn [Re.digits]; by rewrite Hc).
  induction pre as [|x pre IH].
  - rewrite append_nil. cbn [Re.search]. by rewrite Hsep.
  - rewrite append_cons. cbn [Re.search] in *.
    destruct (ten_digits_at (String x pre)) eqn:Hx; [discriminate Hpre|].
    assert (Hx' : Re.run_horizon_at (String x (pre ++ String c rest)) = None).
    { unfold Re.run_horizon_at, ten_digits_at in *. rewrite <- append_cons.
      destruct (Re.digits 10 (String x pre)) eqn:Hd; [discriminate Hx|].
      by rewrite (digits_app_nondigit _ _ _ _ Hd Hc). }
    rewrite Hx'. by apply IH.
Qed.

(** X18: the janitor finds the run in the names that the locator builds:
    for a catalog entry whose level and name hold no ten digits in a row,
    the search for <10 digits>_<3 digits> in the file name of a run
    identifier of ten digits and a horizon from 0 to 999 gives back the
    run identifier. *)
Theorem dataset_filename_run_found cat v name level band r h ending fname :
  cat !! v = Some (name, level, band) ->
  Re.search ten_digits_at level = None ->
  Re.search ten_digits_at (PyStr.upper name) = None ->
  String.length r = 10%nat ->
  PyStr.all_digits r = true ->
  0 <= h <= 999 ->
  __getDatasetFilename cat v r h ending = Ok fname ->
  Re.search Re.run_horizon_at fname = Some r.
Proof.
  intros Hv Hlevel Hname Hlen Hdig Hh Hf.
  rewrite (getDatasetFilename_ok cat v name level band) in Hf by done.
  injection Hf as <-.
  assert (Hpre : Re.search ten_digits_at
                   ("ICON_iko" ++ String "_"
                      (level ++ String "_"
                         ("elements_world" ++ String "_" (PyStr.upper name))))
                 = None).
  { apply no_run_app; [reflexivity | reflexivity|].
    apply no_run_app; [done | reflexivity|].
    apply no_run_app; [reflexivity | reflexivity | done]. }
  replace ("ICON_iko_" ++ level ++ "_elements_world_" ++ PyStr.upper name
           ++ "_" ++ r ++ "_" ++ PyStr.fmt_d true 3 h ++ ending)
    with (("ICON_iko" ++ String "_"
             (level ++ String "_"
                ("elements_world" ++ String "_" (PyStr.upper name))))
          ++ String "_" (r ++ "_" ++ PyStr.fmt_d true 3 h ++ ending)).
  - rewrite search_after_prefix by done.
    rewrite fmt_d_zero_padded3 by lia.
    destruct r as [|c r]; [discriminate Hlen|].
    rewrite append_cons. cbn [Re.search]. rewrite <- append_cons.
    unfold Re.run_horizon_at.
    rewrite <- Hlen, (digits_complete _ _ Hdig). cbn [mbind option_bind].
    rewrite (proj2 (lit_spec "_" _ (zero_padded3 h ++ ending)) eq_refl).
    cbn [mbind option_bind].
    assert (Hd3 : PyStr.all_digits (zero_padded3 h) = true).
    { assert (Hall : forallb (fun n => PyStr.all_digits (zero_padded3 (Z.of_nat n)))
                       (seq 0 1000) = true) by (vm_compute; reflexivity).
      rewrite forallb_forall in Hall. specialize (Hall (Z.to_nat h)).
      rewrite Z2Nat.id in Hall by lia. apply Hall, in_seq. lia. }
    change 3%nat with (String.length (zero_padded3 h)).
    by rewrite (digits_complete _ _ Hd3).
  - repeat (progress rewrite ?append_assoc, ?append_cons, ?append_nil).
    reflexivity.
Qed.

Lemma dataset_filename_run_found_witness :
  Re.search Re.run_horizon_at
    "ICON_iko_single-level_elements_world_T_2M_2024010100_006.grib2"
  = Some "2024010100".
Proof.
  apply (dataset_filename_run_found t2m_catalog "t_2m" "t_2m" "single-level"
           1 "2024010100" 6 ".grib2"); try reflexivity. lia.
Defined.


Lemma getDownloadTimeInfo_identifier_witness :
  exists timeIdentifier downloadTime,
    __getDownloadTimeInfo clock_2024_01_02_0711
    = Ok (timeIdentifier, downloadTime)
    /\ String.length timeIdentifier = 10%nat
    /\ PyStr.all_digits timeIdentifier = true
    /\ timeIdentifierToDatetime timeIdentifier = Ok downloadTime.
Proof.
  destruct (getDownloadTimeInfo_identifier clock_2024_01_02_0711)
    as (tid & dl & Hinfo & H).
  - vm_compute. split; [discriminate | reflexivity].
  - exists tid, dl. split; [exact Hinfo|].
    assert (Hy : 1000 <= datetime.year dl).
    { vm_compute in Hinfo. injection Hinfo as _ <-. vm_compute. discriminate. }
    destruct (H Hy) as (Hl & Hd & _ & _ & _ & _ & Hp). by repeat split.
Defined.

Lemma search_forecast_spec_witness :
  String.length "2024010100" = 10%nat
  /\ PyStr.all_digits "2024010100" = true
  /\ exists pre post,
       "old-forecast-2024010100.icondb" = pre ++ "forecast-" ++ "2024010100" ++ post.
Proof.
  exact (proj1 (search_forecast_spec "old-forecast-2024010100.icondb")
           "2024010100" eq_refl).
Defined.

Lemma search_run_horizon_spec_witness :
  String.length "2023123100" = 10%nat
  /\ PyStr.all_digits "2023123100" = true
  /\ exists pre hhh post,
       "2023123100_006.grib2" = pre ++ "2023123100" ++ "_" ++ hhh ++ post
       /\ String.length hhh = 3%nat /\ PyStr.all_digits hhh = true.
Proof.
  exact (proj1 (search_run_horizon_spec "2023123100_006.grib2")
           "2023123100" eq_refl).
Defined.
